(** * BacklogClient: a shallow embedding of src/backlog-client.ts

    The client is a facade over an injected remote client (backlog-js).
    Every method is an async function: it talks to the remote service,
    may sleep on a timer, and either resolves with a value or rejects
    with a thrown value.  We embed such a function as a computation
    [M A] over an abstract remote state [W]: running it yields an
    outcome, the list of events it produced (requests sent, timer
    waits, invocations of a wrapped call) and the remote state reached.

    Calls to [logger] are left out: the logger is an external
    collaborator, its calls never change control flow or results. *)

From Stdlib Require Import ZArith List String Bool Lia.
Import ListNotations.

Local Open Scope string_scope.
Local Open Scope list_scope.
Local Open Scope Z_scope.

(** ** Values read through [any]

    The fields the code inspects ([description], [content],
    [textFormattingRule], [error.message]) come from JSON payloads and
    from JS error objects: a string, [null], or nothing at all. *)

Inductive JsVal : Type :=
| JUndefined
| JNull
| JString (s : string).

(** JS truthiness: [undefined], [null] and the empty string are falsy. *)
Definition truthy (v : JsVal) : bool :=
  match v with
  | JString s => negb (s =? "")%string
  | _ => false
  end.

(** [a || b] *)
Definition js_or (a b : JsVal) : JsVal := if truthy a then a else b.

(** [a === b] on these values. *)
Definition js_strict_eq (a b : JsVal) : bool :=
  match a, b with
  | JUndefined, JUndefined => true
  | JNull, JNull => true
  | JString s, JString t => (s =? t)%string
  | _, _ => false
  end.

(** The string a template literal substitutes for a value. *)
Definition js_to_string (v : JsVal) : string :=
  match v with
  | JUndefined => "undefined"
  | JNull => "null"
  | JString s => s
  end.

(** [s.includes(needle)] *)
Fixpoint includes (s needle : string) : bool :=
  String.prefix needle s
  || match s with
     | EmptyString => false
     | String _ s' => includes s' needle
     end.

(** A field is absent when the payload does not carry it or carries [null]. *)
Definition absent (v : JsVal) : Prop := v = JUndefined \/ v = JNull.

(** ** Error objects and thrown values *)

Record ErrorObj : Type := mkError {
  err_name : string;
  message : JsVal
}.

(** [new Error(msg)] *)
Definition new_Error (msg : string) : ErrorObj :=
  {| err_name := "Error"; message := JString msg |}.

Definition new_TypeError (msg : string) : ErrorObj :=
  {| err_name := "TypeError"; message := JString msg |}.

(** What a [throw] carries: an error object, or [undefined] (the value
    of a [let] that was never assigned). *)
Inductive Thrown : Type :=
| ThrownUndefined
| ThrownObj (e : ErrorObj).

(** ** Remote payloads (typed [any] in the source) *)

Record RemoteProject : Type := {
  r_project_id : Z;
  r_projectKey : string;
  r_project_name : string;
  r_textFormattingRule : JsVal;
  r_project_rest : list (string * string)
}.

Record RemoteIssue : Type := {
  r_issue_id : Z;
  r_issueKey : string;
  r_summary : string;
  r_description : JsVal;
  r_issue_rest : list (string * string)
}.

Record RemoteWiki : Type := {
  r_wiki_id : Z;
  r_wiki_name : string;
  r_content : JsVal;
  r_wiki_rest : list (string * string)
}.

(** ** Records of ./types *)

Record BacklogProject : Type := {
  project_id : Z;
  projectKey : string;
  project_name : string;
  textFormattingRule : JsVal
}.

Record BacklogIssue : Type := {
  issue_id : Z;
  issueKey : string;
  summary : string;
  description : JsVal
}.

Record BacklogWiki : Type := {
  wiki_id : Z;
  wiki_name : string;
  content : JsVal
}.

(** ** Requests, events, outcomes *)

Record IssuesQuery : Type := {
  q_projectId : list Z;
  q_offset : Z;
  q_count : Z
}.

Inductive Request : Type :=
| ReqGetProject (projectKey : string)
| ReqGetIssues (q : IssuesQuery)
| ReqGetIssue (issueId : Z)
| ReqPatchIssue (issueId : Z) (description : string)
| ReqGetWikis (projectIdOrKey : Z)
| ReqGetWiki (wikiId : Z)
| ReqPatchWiki (wikiId : Z) (content : string).

Inductive Event : Type :=
| EvRequest (r : Request)   (* a call on [this.client] *)
| EvSleep (ms : Z)          (* [await new Promise(r => setTimeout(r, ms))] *)
| EvInvoke.                 (* the retry helper calls [apiCall()] *)

(** A settled promise of the remote client. *)
Inductive Result (A : Type) : Type :=
| Resolved (a : A)
| Rejected (t : Thrown).
Arguments Resolved {A} a.
Arguments Rejected {A} t.

(** How a run of a client method ends.  [NoFuel] is not a JS outcome:
    it marks a run of the pagination loop cut off by the step bound. *)
Inductive Outcome (A : Type) : Type :=
| Returned (a : A)
| Threw (t : Thrown)
| NoFuel.
Arguments Returned {A} a.
Arguments Threw {A} t.
Arguments NoFuel {A}.

Definition is_NoFuel {A} (o : Outcome A) : bool :=
  match o with NoFuel => true | _ => false end.

Definition is_EvRequest (e : Event) : bool :=
  match e with EvRequest _ => true | _ => false end.
Definition is_EvSleep (e : Event) : bool :=
  match e with EvSleep _ => true | _ => false end.
Definition is_EvInvoke (e : Event) : bool :=
  match e with EvInvoke => true | _ => false end.

Definition count_events (p : Event -> bool) (t : list Event) : nat :=
  List.length (filter p t).

(** The mapping lambdas of [getIssues]/[getIssue] and [getWikis]/[getWiki]. *)
Definition mapIssue (issue : RemoteIssue) : BacklogIssue :=
  {| issue_id := r_issue_id issue;
     issueKey := r_issueKey issue;
     summary := r_summary issue;
     description := js_or (r_description issue) (JString "") |}.

Definition mapWiki (wiki : RemoteWiki) : BacklogWiki :=
  {| wiki_id := r_wiki_id wiki;
     wiki_name := r_wiki_name wiki;
     content := js_or (r_content wiki) (JString "") |}.

(** The rate-limit test of the catch block, on the message it reads:
    [error.message && error.message.includes('Too Many Requests')]. *)
Definition rate_limit_phrase : string := "Too Many Requests".

Definition message_matches (m : JsVal) : bool :=
  truthy m &&
  match m with
  | JString s => includes s rate_limit_phrase
  | _ => false
  end.

Definition waitTime : Z := 15000.
Definition count : Z := 100.
Definition default_maxRetries : Z := 3.

Section BacklogClient.

(** The state of the remote service (and of anything else a wrapped
    call may touch). *)
Variable W : Type.

(** ** The computation monad *)

Definition M (A : Type) : Type := W -> Outcome A * list Event * W.

Definition ret {A} (a : A) : M A := fun w => (Returned a, [], w).

Definition throw {A} (t : Thrown) : M A := fun w => (Threw t, [], w).

Definition out_of_fuel {A} : M A := fun w => (NoFuel, [], w).

Definition emit (e : Event) : M unit := fun w => (Returned tt, [e], w).

Definition bind {A B} (m : M A) (k : A -> M B) : M B :=
  fun w =>
    match m w with
    | (Returned a, t1, w1) =>
        match k a w1 with
        | (o, t2, w2) => (o, t1 ++ t2, w2)
        end
    | (Threw e, t1, w1) => (Threw e, t1, w1)
    | (NoFuel, t1, w1) => (NoFuel, t1, w1)
    end.

(** [try { m } catch (error) { handler error }] *)
Definition try_catch {A} (m : M A) (handler : Thrown -> M A) : M A :=
  fun w =>
    match m w with
    | (Threw e, t1, w1) =>
        match handler e w1 with
        | (o, t2, w2) => (o, t1 ++ t2, w2)
        end
    | r => r
    end.

(** [await this.client.op(args)]: the request is sent, the remote
    settles the promise. *)
Definition await_client {A} (r : Request) (op : W -> Result A * W) : M A :=
  fun w =>
    match op w with
    | (Resolved a, w1) => (Returned a, [EvRequest r], w1)
    | (Rejected e, w1) => (Threw e, [EvRequest r], w1)
    end.

Definition sleep (ms : Z) : M unit := emit (EvSleep ms).

Notation "x <- m ;; k" := (bind m (fun x => k))
  (at level 100, m at next level, right associativity).
Notation "m ;;; k" := (bind m (fun _ => k))
  (at level 100, right associativity).

(** ** The retry helper *)

Section Retry.

Variable T : Type.

(** [error.message], read in the catch block. *)
Definition read_message (error : Thrown) : M JsVal :=
  match error with
  | ThrownUndefined =>
      throw (ThrownObj (new_TypeError
        "Cannot read properties of undefined (reading 'message')"))
  | ThrownObj e => ret (message e)
  end.

(** The [for] loop of [retryApiCall].  [iterations] is the number of
    values of [attempt] still to run ([attempt <= maxRetries]); the
    index itself only feeds the log line. *)
Fixpoint retry_loop (apiCall : M T) (iterations : nat) (lastError : Thrown)
  : M T :=
  match iterations with
  | O => throw lastError
  | S iterations' =>
      try_catch (emit EvInvoke ;;; apiCall)
        (fun error =>
           (* lastError = error *)
           m <- read_message error ;;
           if message_matches m then
             sleep waitTime ;;;
             retry_loop apiCall iterations' error   (* continue *)
           else
             throw error)
  end.

Definition retryApiCall (apiCall : M T) (maxRetries : Z) : M T :=
  retry_loop apiCall (Z.to_nat (maxRetries + 1)) ThrownUndefined.

End Retry.

Arguments retry_loop {T} apiCall iterations lastError.
Arguments retryApiCall {T} apiCall maxRetries.

(** ** The injected remote client, [this.client] *)

Record Backlog : Type := {
  client_getProject : string -> W -> Result RemoteProject * W;
  client_getIssues : IssuesQuery -> W -> Result (list RemoteIssue) * W;
  client_getIssue : Z -> W -> Result RemoteIssue * W;
  client_patchIssue : Z -> string -> W -> Result unit * W;
  client_getWikis : Z -> W -> Result (list RemoteWiki) * W;
  client_getWiki : Z -> W -> Result RemoteWiki * W;
  client_patchWiki : Z -> string -> W -> Result unit * W
}.

Variable client : Backlog.

Definition getProject (projectKey : string) : M BacklogProject :=
  try_catch
    (project <- await_client (ReqGetProject projectKey)
                  (client_getProject client projectKey) ;;
     if negb (js_strict_eq (r_textFormattingRule project) (JString "markdown"))
     then
       throw (ThrownObj (new_Error
         ("Project " ++ projectKey
          ++ " does not use markdown formatting (uses: "
          ++ js_to_string (r_textFormattingRule project) ++ ")")%string))
     else
       ret {| project_id := r_project_id project;
              projectKey := r_projectKey project;
              project_name := r_project_name project;
              textFormattingRule := r_textFormattingRule project |})
    (fun error => throw error).

Definition issues_query (projectId offset : Z) : IssuesQuery :=
  {| q_projectId := [projectId]; q_offset := offset; q_count := count |}.

(** The [while (hasMoreIssues)] loop; [fuel] bounds its iterations. *)
Fixpoint getIssues_loop (fuel : nat) (projectId offset : Z)
    (allIssues : list BacklogIssue) : M (list BacklogIssue) :=
  match fuel with
  | O => out_of_fuel
  | S fuel' =>
      issues <- await_client (ReqGetIssues (issues_query projectId offset))
                  (client_getIssues client (issues_query projectId offset)) ;;
      if Z.of_nat (List.length issues) =? 0 then
        ret allIssues                                  (* break *)
      else
        let mappedIssues := map mapIssue issues in
        let allIssues' := allIssues ++ mappedIssues in
        if Z.of_nat (List.length issues) <? count then
          ret allIssues'                               (* hasMoreIssues = false *)
        else
          getIssues_loop fuel' projectId (offset + count) allIssues'
  end.

Definition getIssues (fuel : nat) (projectId : Z) : M (list BacklogIssue) :=
  try_catch (getIssues_loop fuel projectId 0 [])
    (fun error => throw error).

Definition getIssue (issueId : Z) : M BacklogIssue :=
  retryApiCall
    (issue <- await_client (ReqGetIssue issueId)
                (client_getIssue client issueId) ;;
     ret (mapIssue issue))
    default_maxRetries.

Definition updateIssue (issueId : Z) (description : string) : M unit :=
  retryApiCall
    (await_client (ReqPatchIssue issueId description)
       (client_patchIssue client issueId description))
    default_maxRetries.

Definition getWikis (projectId : Z) : M (list BacklogWiki) :=
  try_catch
    (wikis <- await_client (ReqGetWikis projectId)
                (client_getWikis client projectId) ;;
     ret (map mapWiki wikis))
    (fun error => throw error).

Definition getWiki (wikiId : Z) : M BacklogWiki :=
  retryApiCall
    (wiki <- await_client (ReqGetWiki wikiId)
               (client_getWiki client wikiId) ;;
     ret (mapWiki wiki))
    default_maxRetries.

Definition updateWiki (wikiId : Z) (content : string) : M unit :=
  retryApiCall
    (await_client (ReqPatchWiki wikiId content)
       (client_patchWiki client wikiId content))
    default_maxRetries.

End BacklogClient.

Arguments ret {W A} a.
Arguments throw {W A} t.
Arguments out_of_fuel {W A}.
Arguments emit {W} e.
Arguments sleep {W} ms.
Arguments bind {W A B} m k.
Arguments try_catch {W A} m handler.
Arguments await_client {W A} r op.
Arguments read_message {W} error.
Arguments retry_loop {W T} apiCall iterations lastError.
Arguments retryApiCall {W T} apiCall maxRetries.
Arguments client_getProject {W} _ _ _.
Arguments client_getIssues {W} _ _ _.
Arguments client_getIssue {W} _ _ _.
Arguments client_patchIssue {W} _ _ _ _.
Arguments client_getWikis {W} _ _ _.
Arguments client_getWiki {W} _ _ _.
Arguments client_patchWiki {W} _ _ _ _.
Arguments getProject {W} client projectKey.
Arguments getIssues_loop {W} client fuel projectId offset allIssues.
Arguments getIssues {W} client fuel projectId.
Arguments getIssue {W} client issueId.
Arguments updateIssue {W} client issueId description.
Arguments getWikis {W} client projectId.
Arguments getWiki {W} client wikiId.
Arguments updateWiki {W} client wikiId content.

(** ** Vocabulary of the specification *)

(** A rate-limit error: its message is a string that contains
    'Too Many Requests'. *)
Definition rate_limit_error (e : ErrorObj) : bool :=
  match message e with
  | JString s => includes s rate_limit_phrase
  | _ => false
  end.

(** The events of one attempt whose wrapped call produced [t], and of
    one wait of the retry helper. *)
Definition attempt (t : list Event) : list Event := EvInvoke :: t.
Definition wait : list Event := [EvSleep waitTime].

(** The requests of [n] successive pages, from [offset] on. *)
Fixpoint page_requests (projectId offset : Z) (n : nat) : list Event :=
  match n with
  | O => []
  | S n' =>
      EvRequest (ReqGetIssues (issues_query projectId offset))
        :: page_requests projectId (offset + count) n'
  end.

Section Pages.

Variable W : Type.
Variable client : Backlog W.
Variable projectId : Z.

(** [serves offset w pages w']: asked for successive pages from
    [offset] on in state [w], the remote answers [pages], every page
    but the last with at least 100 items, the last with fewer, and is
    left in state [w']. *)
Inductive serves : Z -> W -> list (list RemoteIssue) -> W -> Prop :=
| serves_last offset w page w' :
    client_getIssues client (issues_query projectId offset) w
      = (Resolved page, w') ->
    Z.of_nat (List.length page) < count ->
    serves offset w [page] w'
| serves_more offset w page w1 pages w' :
    client_getIssues client (issues_query projectId offset) w
      = (Resolved page, w1) ->
    count <= Z.of_nat (List.length page) ->
    serves (offset + count) w1 pages w' ->
    serves offset w (page :: pages) w'.

(** The answer of the remote to the [n]-th page request of a run that
    starts at [offset] in state [w] (numbered from 0), when every
    earlier request was answered. *)
Fixpoint nth_page (n : nat) (offset : Z) (w : W)
  : Result (list RemoteIssue) :=
  match n with
  | O => fst (client_getIssues client (issues_query projectId offset) w)
  | S n' =>
      nth_page n' (offset + count)
        (snd (client_getIssues client (issues_query projectId offset) w))
  end.

End Pages.

Arguments serves {W} client projectId _ _ _ _.
Arguments nth_page {W} client projectId n offset w.

(** ** Scripted remotes, for concrete runs *)

(** A wrapped call driven by a script: each invocation consumes one
    entry; an exhausted script keeps rejecting with [undefined]. *)
Definition scripted {A} : M (list (Result A)) A :=
  fun w =>
    match w with
    | [] => (Threw ThrownUndefined, [], [])
    | Resolved a :: w' => (Returned a, [], w')
    | Rejected e :: w' => (Threw e, [], w')
    end.

Definition pop {A} (w : list (Result A)) : Result A * list (Result A) :=
  match w with
  | [] => (Rejected ThrownUndefined, [])
  | r :: w' => (r, w')
  end.

(** A remote whose state is the script of its answers to issue and
    wiki requests; project requests are answered from a fixed value. *)
Record Script : Type := {
  s_project : Result RemoteProject;
  s_pages : list (Result (list RemoteIssue));
  s_issue : list (Result RemoteIssue);
  s_wikis : Result (list RemoteWiki);
  s_wiki : list (Result RemoteWiki)
}.

Definition scripted_client : Backlog Script :=
  {| client_getProject := fun _ w => (s_project w, w);
     client_getIssues := fun _ w =>
       (fst (pop (s_pages w)),
        {| s_project := s_project w; s_pages := snd (pop (s_pages w));
           s_issue := s_issue w; s_wikis := s_wikis w; s_wiki := s_wiki w |});
     client_getIssue := fun _ w =>
       (fst (pop (s_issue w)),
        {| s_project := s_project w; s_pages := s_pages w;
           s_issue := snd (pop (s_issue w)); s_wikis := s_wikis w;
           s_wiki := s_wiki w |});
     client_patchIssue := fun _ _ w => (Resolved tt, w);
     client_getWikis := fun _ w => (s_wikis w, w);
     client_getWiki := fun _ w =>
       (fst (pop (s_wiki w)),
        {| s_project := s_project w; s_pages := s_pages w;
           s_issue := s_issue w; s_wikis := s_wikis w;
           s_wiki := snd (pop (s_wiki w)) |});
     client_patchWiki := fun _ _ w => (Resolved tt, w) |}.

Definition sample_issue (d : JsVal) : RemoteIssue :=
  {| r_issue_id := 1; r_issueKey := "BLG-1"; r_summary := "First";
     r_description := d; r_issue_rest := [("status", "Open")] |}.

Definition sample_wiki (c : JsVal) : RemoteWiki :=
  {| r_wiki_id := 5; r_wiki_name := "Home"; r_content := c;
     r_wiki_rest := [] |}.

Definition sample_project (rule : JsVal) : RemoteProject :=
  {| r_project_id := 9; r_projectKey := "BLG"; r_project_name := "Blog";
     r_textFormattingRule := rule; r_project_rest := [("archived", "false")] |}.

Definition too_many_requests : ErrorObj := new_Error "Too Many Requests".
Definition second_error : ErrorObj := new_Error "429 Too Many Requests".
Definition not_found : ErrorObj := new_Error "Not Found".
(** An error object of a rate-limited response that carries no message. *)
Definition status_429 : ErrorObj :=
  {| err_name := "Too Many Requests"; message := JUndefined |}.

Definition pages_script (pages : list (list RemoteIssue)) : Script :=
  {| s_project := Rejected (ThrownObj not_found);
     s_pages := map Resolved pages;
     s_issue := []; s_wikis := Rejected (ThrownObj not_found);
     s_wiki := [] |}.

Definition page_of_100 : list RemoteIssue := repeat (sample_issue JNull) 100.
Definition page_of_40 : list RemoteIssue :=
  repeat (sample_issue (JString "text")) 40.

Definition project_script (rule : JsVal) : Script :=
  {| s_project := Resolved (sample_project rule); s_pages := [];
     s_issue := []; s_wikis := Resolved []; s_wiki := [] |}.

Definition issue_script (l : list (Result RemoteIssue)) : Script :=
  {| s_project := Rejected (ThrownObj not_found); s_pages := [];
     s_issue := l; s_wikis := Resolved []; s_wiki := [] |}.

Definition wiki_script (l : list (Result RemoteWiki)) : Script :=
  {| s_project := Rejected (ThrownObj not_found); s_pages := [];
     s_issue := [];
     s_wikis := Resolved [sample_wiki JNull; sample_wiki (JString "# Home")];
     s_wiki := l |}.

(** A wrapped call that is rate limited whenever it is invoked; the
    state counts its invocations. *)
Definition always_limited : M nat Z :=
  fun n => (Threw (ThrownObj too_many_requests), [], S n).

(** The request of page number [i] (from 0): offset [100 * i], count 100. *)
Definition page_request (projectId : Z) (i : nat) : Event :=
  EvRequest (ReqGetIssues
    {| q_projectId := [projectId];
       q_offset := 100 * Z.of_nat i;
       q_count := 100 |}).

(** A field of a returned record is normalized with respect to the
    field of the payload it was made from. *)
Definition normalized (remote_field field : JsVal) : Prop :=
  (absent remote_field -> field = JString "") /\
  field <> JUndefined /\ field <> JNull.

(** ** Vocabulary for runs of the retry helper and of the page loop *)

(** [limited_run apiCall k w last t w' last']: from state [w], [k]
    invocations in a row are rejected with a rate-limit error; [t] is
    what the loop produces over them (each attempt, then its wait),
    [w'] the state reached, and [last'] the value of [lastError] then
    ([last] when [k] is 0). *)
Inductive limited_run {W T} (apiCall : M W T)
  : nat -> W -> Thrown -> list Event -> W -> Thrown -> Prop :=
| limited_none w last : limited_run apiCall 0 w last [] w last
| limited_next k w last e t w1 t' w' last' :
    apiCall w = (Threw (ThrownObj e), t, w1) ->
    rate_limit_error e = true ->
    limited_run apiCall k w1 (ThrownObj e) t' w' last' ->
    limited_run apiCall (S k) w last (attempt t ++ wait ++ t') w' last'.

(** The events of [k] attempts of a wrapped call that sends the single
    request [r], with a wait between consecutive attempts. *)
Fixpoint retry_trace (r : Request) (k : nat) : list Event :=
  match k with
  | O => []
  | S k' =>
      match k' with
      | O => [EvInvoke; EvRequest r]
      | S _ => [EvInvoke; EvRequest r; EvSleep waitTime] ++ retry_trace r k'
      end
  end.

(** The time a run spends in timer waits, in milliseconds. *)
Fixpoint total_sleep (t : list Event) : Z :=
  match t with
  | [] => 0
  | EvSleep ms :: t' => ms + total_sleep t'
  | _ :: t' => total_sleep t'
  end.

(** [rejects_after client projectId offset w pages e w']: asked for
    successive pages from [offset] on, the remote answers the full
    pages [pages] (100 items or more each) and then rejects the next
    request with [e]. *)
Inductive rejects_after {W} (client : Backlog W) (projectId : Z)
  : Z -> W -> list (list RemoteIssue) -> Thrown -> W -> Prop :=
| rejects_now offset w e w' :
    client_getIssues client (issues_query projectId offset) w
      = (Rejected e, w') ->
    rejects_after client projectId offset w [] e w'
| rejects_later offset w page w1 pages e w' :
    client_getIssues client (issues_query projectId offset) w
      = (Resolved page, w1) ->
    count <= Z.of_nat (List.length page) ->
    rejects_after client projectId (offset + count) w1 pages e w' ->
    rejects_after client projectId offset w (page :: pages) e w'.

(** A remote that holds the issues [db] and answers a page request with
    the slice it asks for; nothing else is stored. *)
Definition paging_client (db : list RemoteIssue) : Backlog unit :=
  {| client_getProject := fun _ w => (Rejected (ThrownObj not_found), w);
     client_getIssues := fun q w =>
       (Resolved (firstn (Z.to_nat (q_count q))
                    (skipn (Z.to_nat (q_offset q)) db)), w);
     client_getIssue := fun _ w => (Rejected (ThrownObj not_found), w);
     client_patchIssue := fun _ _ w => (Resolved tt, w);
     client_getWikis := fun _ w => (Resolved [], w);
     client_getWiki := fun _ w => (Rejected (ThrownObj not_found), w);
     client_patchWiki := fun _ _ w => (Resolved tt, w) |}.

(** A remote that ignores the offset and always answers with the same
    full page. *)
Definition endless_client : Backlog unit :=
  {| client_getProject := fun _ w => (Rejected (ThrownObj not_found), w);
     client_getIssues := fun _ w => (Resolved page_of_100, w);
     client_getIssue := fun _ w => (Rejected (ThrownObj not_found), w);
     client_patchIssue := fun _ _ w => (Resolved tt, w);
     client_getWikis := fun _ w => (Resolved [], w);
     client_getWiki := fun _ w => (Rejected (ThrownObj not_found), w);
     client_patchWiki := fun _ _ w => (Resolved tt, w) |}.

(** A remote whose patch requests are answered from a script. *)
Definition patch_client : Backlog (list (Result unit)) :=
  {| client_getProject := fun _ w => (Rejected (ThrownObj not_found), w);
     client_getIssues := fun _ w => (Resolved [], w);
     client_getIssue := fun _ w => (Rejected (ThrownObj not_found), w);
     client_patchIssue := fun _ _ w => pop w;
     client_getWikis := fun _ w => (Resolved [], w);
     client_getWiki := fun _ w => (Rejected (ThrownObj not_found), w);
     client_patchWiki := fun _ _ w => pop w |}.

(** [retried_run r n run]: [run] ended (with a value or a thrown
    value) after [k] attempts, [1 <= k <= n], each sending the request
    [r], with a wait between consecutive attempts; or, when all [n]
    attempts were rate limited, after one more wait and with the
    rate-limit error thrown. *)
Definition retried_run {A W} (r : Request) (n : nat)
    (run : Outcome A * list Event * W) : Prop :=
  is_NoFuel (fst (fst run)) = false /\
  exists k, (1 <= k <= n)%nat /\
    (snd (fst run) = retry_trace r k \/
     (k = n /\ snd (fst run) = retry_trace r n ++ wait /\
      exists e, fst (fst run) = Threw (ThrownObj e) /\
                rate_limit_error e = true)).

(** A script of page answers: one full page, then a rejection. *)
Definition failing_pages_script : Script :=
  {| s_project := Rejected (ThrownObj not_found);
     s_pages := [Resolved page_of_100; Rejected (ThrownObj not_found);
                 Resolved page_of_40];
     s_issue := []; s_wikis := Rejected (ThrownObj not_found);
     s_wiki := [] |}.

Definition numbered_issue (i : nat) : RemoteIssue :=
  {| r_issue_id := Z.of_nat i; r_issueKey := "BLG"; r_summary := "Item";
     r_description := JNull; r_issue_rest := [] |}.

Definition db_200 : list RemoteIssue := map numbered_issue (seq 0 200).

(** * Facts *)

(** The test of the catch block holds exactly for rate-limit errors. *)
Lemma message_matches_rate_limit (e : ErrorObj) :
  message_matches (message e) = rate_limit_error e.
Proof.
  unfold message_matches, rate_limit_error.
  destruct (message e) as [| |s]; try reflexivity.
  destruct s as [|c s]; [reflexivity|].
  reflexivity.
Qed.

Lemma falsy_not_rate_limit (e : ErrorObj) :
  truthy (message e) = false -> rate_limit_error e = false.
Proof.
  rewrite <- message_matches_rate_limit. unfold message_matches.
  intros ->. reflexivity.
Qed.

Section RetryFacts.

Variables (W T : Type).
Variable apiCall : M W T.

Lemma retry_step_returned n last w v t w1 :
  apiCall w = (Returned v, t, w1) ->
  retry_loop apiCall (S n) last w = (Returned v, attempt t, w1).
Proof.
  intros H. cbn. unfold try_catch, bind, emit. rewrite H. reflexivity.
Qed.

Lemma retry_step_other n last w e t w1 :
  apiCall w = (Threw (ThrownObj e), t, w1) ->
  rate_limit_error e = false ->
  retry_loop apiCall (S n) last w = (Threw (ThrownObj e), attempt t, w1).
Proof.
  intros H Hr. cbn. unfold try_catch, bind, emit. rewrite H. cbn.
  rewrite message_matches_rate_limit, Hr. cbn.
  unfold attempt. now rewrite !app_nil_r.
Qed.

Lemma retry_step_rate_limited n last w e t w1 :
  apiCall w = (Threw (ThrownObj e), t, w1) ->
  rate_limit_error e = true ->
  retry_loop apiCall (S n) last w =
    let '(o, t2, w2) := retry_loop apiCall n (ThrownObj e) w1 in
    (o, attempt t ++ wait ++ t2, w2).
Proof.
  intros H Hr. cbn [retry_loop]. unfold try_catch at 1, bind at 1, emit.
  rewrite H. unfold bind at 1. cbn [read_message ret].
  rewrite message_matches_rate_limit, Hr.
  unfold bind, sleep, emit.
  destruct (retry_loop apiCall n (ThrownObj e) w1) as [[o t2] w2].
  reflexivity.
Qed.

Lemma retry_zero last w :
  retry_loop apiCall 0 last w = (Threw last, [], w).
Proof. reflexivity. Qed.

End RetryFacts.

(** [attempt <= maxRetries] holds for [maxRetries + 1] values of
    [attempt], so a bound of at least [k] leaves more than [k] iterations. *)
Lemma iterations_above (maxRetries : Z) (k : nat) :
  Z.of_nat k <= maxRetries ->
  exists j, Z.to_nat (maxRetries + 1) = S (k + j).
Proof.
  intros H. exists (Z.to_nat (maxRetries - Z.of_nat k)). lia.
Qed.

(** ** The retry helper on given behaviours of the wrapped call *)

(** C2.  A wrapped call that is rejected with a rate-limit error on its
    first two invocations and resolves on the third: the helper invokes
    it exactly three times, waits 15000 ms before each of the two
    retries, and returns the value of the third invocation. *)
Theorem retry_twice_then_success
    {W T} (apiCall : M W T) (maxRetries : Z)
    (w0 w1 w2 w3 : W) (e1 e2 : ErrorObj) (v : T) (t1 t2 t3 : list Event) :
  2 <= maxRetries ->
  apiCall w0 = (Threw (ThrownObj e1), t1, w1) -> rate_limit_error e1 = true ->
  apiCall w1 = (Threw (ThrownObj e2), t2, w2) -> rate_limit_error e2 = true ->
  apiCall w2 = (Returned v, t3, w3) ->
  retryApiCall apiCall maxRetries w0 =
    (Returned v,
     attempt t1 ++ [EvSleep 15000] ++ attempt t2 ++ [EvSleep 15000] ++ attempt t3,
     w3).
Proof.
  intros Hm H1 R1 H2 R2 H3. unfold retryApiCall.
  destruct (iterations_above maxRetries 2 Hm) as [j ->]. cbn [Nat.add].
  rewrite (retry_step_rate_limited _ _ _ _ _ _ _ _ _ H1 R1).
  rewrite (retry_step_rate_limited _ _ _ _ _ _ _ _ _ H2 R2).
  rewrite (retry_step_returned _ _ _ _ _ _ _ _ _ H3).
  reflexivity.
Qed.

Lemma retry_twice_then_success_witness :
  retryApiCall scripted default_maxRetries
    [Rejected (ThrownObj too_many_requests);
     Rejected (ThrownObj too_many_requests);
     Resolved 42]
  = (Returned 42,
     [EvInvoke; EvSleep 15000; EvInvoke; EvSleep 15000; EvInvoke], []).
Proof.
  apply (retry_twice_then_success scripted default_maxRetries
           _ [Rejected (ThrownObj too_many_requests); Resolved 42]
           [Resolved 42] [] too_many_requests too_many_requests 42 [] [] []).
  - unfold default_maxRetries. lia.
  - reflexivity.
  - reflexivity.
  - reflexivity.
  - reflexivity.
  - reflexivity.
Defined.

(** C5.  A wrapped call whose first invocation is rejected with an error
    that is not a rate-limit error: the helper rethrows that error after
    this single invocation, without any wait and without a retry. *)
Theorem retry_other_error_propagates
    {W T} (apiCall : M W T) (maxRetries : Z)
    (w w1 : W) (e : ErrorObj) (t : list Event) :
  0 <= maxRetries ->
  apiCall w = (Threw (ThrownObj e), t, w1) ->
  rate_limit_error e = false ->
  retryApiCall apiCall maxRetries w = (Threw (ThrownObj e), attempt t, w1).
Proof.
  intros Hm H R. unfold retryApiCall.
  destruct (iterations_above maxRetries 0 Hm) as [j ->].
  exact (retry_step_other _ _ _ _ _ _ _ _ _ H R).
Qed.

Lemma retry_other_error_propagates_witness :
  retryApiCall scripted default_maxRetries
    [Rejected (ThrownObj not_found); Resolved 42]
  = (Threw (ThrownObj not_found), [EvInvoke], [Resolved 42]).
Proof.
  apply (retry_other_error_propagates scripted default_maxRetries
           _ [Resolved 42] not_found []).
  - unfold default_maxRetries. lia.
  - reflexivity.
  - reflexivity.
Defined.

(** C10.  A wrapped call rejected with an error object whose [message]
    is missing, [null] or empty: the helper does not take it for a
    rate-limit error, whatever else the object says; it rethrows it
    after the single invocation, without any wait and without a retry. *)
Theorem retry_error_without_message_propagates
    {W T} (apiCall : M W T) (maxRetries : Z)
    (w w1 : W) (e : ErrorObj) (t : list Event) :
  0 <= maxRetries ->
  apiCall w = (Threw (ThrownObj e), t, w1) ->
  truthy (message e) = false ->
  retryApiCall apiCall maxRetries w = (Threw (ThrownObj e), attempt t, w1).
Proof.
  intros Hm H F. unfold retryApiCall.
  destruct (iterations_above maxRetries 0 Hm) as [j ->].
  apply retry_step_other; [exact H | now apply falsy_not_rate_limit].
Qed.

Lemma retry_error_without_message_propagates_witness :
  retryApiCall scripted default_maxRetries
    [Rejected (ThrownObj status_429); Resolved 42]
  = (Threw (ThrownObj status_429), [EvInvoke], [Resolved 42]).
Proof.
  apply (retry_error_without_message_propagates scripted default_maxRetries
           _ [Resolved 42] status_429 []).
  - unfold default_maxRetries. lia.
  - reflexivity.
  - reflexivity.
Defined.

(** C6.  A wrapped call rejected with a rate-limit error each time it is
    invoked: with the default bound of 3 retries the helper invokes it
    exactly four times and then throws the error of the fourth
    invocation, the last it observed. *)
Theorem retry_exhausted_after_four_attempts
    {W T} (apiCall : M W T)
    (w0 w1 w2 w3 w4 : W) (e1 e2 e3 e4 : ErrorObj) (t1 t2 t3 t4 : list Event) :
  apiCall w0 = (Threw (ThrownObj e1), t1, w1) -> rate_limit_error e1 = true ->
  apiCall w1 = (Threw (ThrownObj e2), t2, w2) -> rate_limit_error e2 = true ->
  apiCall w2 = (Threw (ThrownObj e3), t3, w3) -> rate_limit_error e3 = true ->
  apiCall w3 = (Threw (ThrownObj e4), t4, w4) -> rate_limit_error e4 = true ->
  retryApiCall apiCall default_maxRetries w0 =
    (Threw (ThrownObj e4),
     attempt t1 ++ wait ++ attempt t2 ++ wait ++
     attempt t3 ++ wait ++ attempt t4 ++ wait,
     w4).
Proof.
  intros H1 R1 H2 R2 H3 R3 H4 R4. unfold retryApiCall.
  change (Z.to_nat (default_maxRetries + 1)) with 4%nat.
  rewrite (retry_step_rate_limited _ _ _ _ _ _ _ _ _ H1 R1).
  rewrite (retry_step_rate_limited _ _ _ _ _ _ _ _ _ H2 R2).
  rewrite (retry_step_rate_limited _ _ _ _ _ _ _ _ _ H3 R3).
  rewrite (retry_step_rate_limited _ _ _ _ _ _ _ _ _ H4 R4).
  rewrite retry_zero. reflexivity.
Qed.

Lemma retry_exhausted_after_four_attempts_witness :
  retryApiCall scripted default_maxRetries
    [Rejected (ThrownObj too_many_requests);
     Rejected (ThrownObj too_many_requests);
     Rejected (ThrownObj too_many_requests);
     Rejected (ThrownObj second_error);
     Resolved 42]
  = (Threw (ThrownObj second_error),
     [EvInvoke; EvSleep 15000; EvInvoke; EvSleep 15000;
      EvInvoke; EvSleep 15000; EvInvoke; EvSleep 15000],
     [Resolved 42]).
Proof.
  apply (retry_exhausted_after_four_attempts scripted
           _
           [Rejected (ThrownObj too_many_requests);
            Rejected (ThrownObj too_many_requests);
            Rejected (ThrownObj second_error); Resolved 42]
           [Rejected (ThrownObj too_many_requests);
            Rejected (ThrownObj second_error); Resolved 42]
           [Rejected (ThrownObj second_error); Resolved 42]
           [Resolved 42]
           too_many_requests too_many_requests too_many_requests second_error
           [] [] [] []); reflexivity.
Defined.

(** A wrapped call that is rate limited at every invocation: the loop
    waits after each rejection, the last one included. *)
Lemma retry_loop_always_limited
    {W T} (apiCall : M W T) :
  (forall w, exists e t w',
      apiCall w = (Threw (ThrownObj e), t, w') /\ rate_limit_error e = true) ->
  forall n last w,
  exists e t t_last w_last w',
    apiCall w_last = (Threw (ThrownObj e), t_last, w') /\
    retry_loop apiCall (S n) last w
      = (Threw (ThrownObj e), t ++ attempt t_last ++ wait, w').
Proof.
  intros Hall. induction n as [|n IH]; intros last w.
  - destruct (Hall w) as (e & t & w' & H & R).
    exists e, [], t, w, w'. split; [exact H|].
    rewrite (retry_step_rate_limited _ _ _ _ _ _ _ _ _ H R), retry_zero.
    cbn [app]. now rewrite app_nil_r.
  - destruct (Hall w) as (e & t & w1 & H & R).
    destruct (IH (ThrownObj e) w1) as (e' & t' & tl' & wl & w' & Hl & Hr).
    exists e', (attempt t ++ wait ++ t'), tl', wl, w'. split; [exact Hl|].
    rewrite (retry_step_rate_limited _ _ _ _ _ _ _ _ _ H R), Hr.
    now rewrite <- !app_assoc.
Qed.

(** C3.  What the loop does when the attempts run out: a wrapped call
    that is rate limited at every invocation makes the helper wait after
    each rejection, the last one included.  The run ends with the last
    attempt, then a wait of 15000 ms that no attempt follows, and only
    then fails with the error of that attempt. *)
Theorem retry_exhausted_ends_with_wait
    {W T} (apiCall : M W T) (maxRetries : Z) (w : W) :
  0 <= maxRetries ->
  (forall w, exists e t w',
      apiCall w = (Threw (ThrownObj e), t, w') /\ rate_limit_error e = true) ->
  exists e t t_last w_last w',
    apiCall w_last = (Threw (ThrownObj e), t_last, w') /\
    retryApiCall apiCall maxRetries w
      = (Threw (ThrownObj e), t ++ attempt t_last ++ [EvSleep 15000], w').
Proof.
  intros Hm Hall. unfold retryApiCall.
  destruct (iterations_above maxRetries 0 Hm) as [j ->].
  exact (retry_loop_always_limited apiCall Hall j ThrownUndefined w).
Qed.

Lemma retry_exhausted_ends_with_wait_witness :
  exists e t t_last w_last w',
    always_limited w_last = (Threw (ThrownObj e), t_last, w') /\
    retryApiCall always_limited default_maxRetries 0%nat
      = (Threw (ThrownObj e), t ++ attempt t_last ++ [EvSleep 15000], w').
Proof.
  apply (retry_exhausted_ends_with_wait always_limited default_maxRetries 0%nat).
  - unfold default_maxRetries. lia.
  - intros w. exists too_many_requests, [], (S w). split; reflexivity.
Defined.

(** The run of the default helper on that call: four attempts, four waits. *)
Example retry_always_limited_run :
  retryApiCall always_limited default_maxRetries 0%nat
  = (Threw (ThrownObj too_many_requests),
     [EvInvoke; EvSleep 15000; EvInvoke; EvSleep 15000;
      EvInvoke; EvSleep 15000; EvInvoke; EvSleep 15000],
     4%nat).
Proof. reflexivity. Qed.

Example retry_always_limited_counts :
  let t := snd (fst (retryApiCall always_limited default_maxRetries 0%nat)) in
  count_events is_EvInvoke t = 4%nat /\
  count_events is_EvSleep t = 4%nat /\
  last t EvInvoke = EvSleep 15000.
Proof. repeat split. Qed.

(** ** Pagination *)

Lemma page_requests_seq projectId (k n : nat) :
  page_requests projectId (100 * Z.of_nat k) n
  = map (page_request projectId) (seq k n).
Proof.
  revert k. induction n as [|n IH]; intros k; [reflexivity|].
  cbn [page_requests seq map]. f_equal.
  replace (100 * Z.of_nat k + count) with (100 * Z.of_nat (S k))
    by (unfold count; lia).
  apply IH.
Qed.

Lemma try_rethrow {W A} (m : M W A) (w : W) :
  try_catch m (fun error => throw error) w = m w.
Proof.
  unfold try_catch, throw. destruct (m w) as [[[a|e|] t] w1]; try reflexivity.
  now rewrite app_nil_r.
Qed.

Section PaginationFacts.

Variable W : Type.
Variable client : Backlog W.
Variable projectId : Z.

(** One turn of the loop, by the answer of the remote. *)
Lemma loop_step_rejected fuel offset acc w e w1 :
  client_getIssues client (issues_query projectId offset) w = (Rejected e, w1) ->
  getIssues_loop client (S fuel) projectId offset acc w
  = (Threw e, [EvRequest (ReqGetIssues (issues_query projectId offset))], w1).
Proof.
  intros H. cbn [getIssues_loop]. unfold bind, await_client. now rewrite H.
Qed.

Lemma loop_step_empty fuel offset acc w w1 :
  client_getIssues client (issues_query projectId offset) w = (Resolved [], w1) ->
  getIssues_loop client (S fuel) projectId offset acc w
  = (Returned acc, [EvRequest (ReqGetIssues (issues_query projectId offset))], w1).
Proof.
  intros H. cbn [getIssues_loop]. unfold bind, await_client. now rewrite H.
Qed.

Lemma loop_step_short fuel offset acc w page w1 :
  client_getIssues client (issues_query projectId offset) w = (Resolved page, w1) ->
  Z.of_nat (List.length page) < count ->
  getIssues_loop client (S fuel) projectId offset acc w
  = (Returned (acc ++ map mapIssue page),
     [EvRequest (ReqGetIssues (issues_query projectId offset))], w1).
Proof.
  intros H Hlt. destruct page as [|i page].
  - rewrite (loop_step_empty _ _ _ _ _ H). cbn. now rewrite app_nil_r.
  - cbn [getIssues_loop]. unfold bind, await_client. rewrite H.
    replace (Z.of_nat (List.length (i :: page)) =? 0) with false
      by (symmetry; apply Z.eqb_neq; cbn [List.length]; lia).
    replace (Z.of_nat (List.length (i :: page)) <? count) with true
      by (symmetry; now apply Z.ltb_lt).
    reflexivity.
Qed.

Lemma loop_step_full fuel offset acc w page w1 :
  client_getIssues client (issues_query projectId offset) w = (Resolved page, w1) ->
  count <= Z.of_nat (List.length page) ->
  getIssues_loop client (S fuel) projectId offset acc w
  = let '(o, t, w2) :=
      getIssues_loop client fuel projectId (offset + count)
        (acc ++ map mapIssue page) w1 in
    (o, EvRequest (ReqGetIssues (issues_query projectId offset)) :: t, w2).
Proof.
  intros H Hle. cbn [getIssues_loop]. unfold bind at 1, await_client. rewrite H.
  replace (Z.of_nat (List.length page) =? 0) with false
    by (symmetry; apply Z.eqb_neq; unfold count in Hle; lia).
  replace (Z.of_nat (List.length page) <? count) with false
    by (symmetry; now apply Z.ltb_ge).
  reflexivity.
Qed.

(** A served sequence of pages drives the loop to its result. *)
Lemma getIssues_loop_serves offset w pages w' :
  serves client projectId offset w pages w' ->
  forall fuel acc, (List.length pages <= fuel)%nat ->
  getIssues_loop client fuel projectId offset acc w
  = (Returned (acc ++ map mapIssue (List.concat pages)),
     page_requests projectId offset (List.length pages), w').
Proof.
  induction 1 as [offset w page w' H Hlt | offset w page w1 pages w' H Hle _ IH];
    intros fuel acc Hf.
  - destruct fuel as [|fuel]; [cbn in Hf; lia|].
    rewrite (loop_step_short _ _ _ _ _ _ H Hlt). cbn. now rewrite app_nil_r.
  - destruct fuel as [|fuel]; [cbn in Hf; lia|].
    rewrite (loop_step_full _ _ _ _ _ _ H Hle).
    rewrite IH by (cbn in Hf; lia).
    cbn [List.concat List.length page_requests]. now rewrite map_app, app_assoc.
Qed.

(** Conversely, whatever the loop returns was served by the remote. *)
Lemma getIssues_loop_returned fuel :
  forall offset acc w issues t w',
  getIssues_loop client fuel projectId offset acc w = (Returned issues, t, w') ->
  exists pages,
    serves client projectId offset w pages w' /\
    issues = acc ++ map mapIssue (List.concat pages).
Proof.
  induction fuel as [|fuel IH]; intros offset acc w issues t w' Hrun;
    [discriminate|].
  destruct (client_getIssues client (issues_query projectId offset) w)
    as [[page|e] w1] eqn:H.
  - destruct (Z.lt_ge_cases (Z.of_nat (List.length page)) count) as [Hlt|Hle].
    + rewrite (loop_step_short _ _ _ _ _ _ H Hlt) in Hrun.
      injection Hrun as <- _ <-. exists [page]. split.
      * now apply serves_last.
      * cbn. now rewrite app_nil_r.
    + rewrite (loop_step_full _ _ _ _ _ _ H Hle) in Hrun.
      destruct (getIssues_loop client fuel projectId (offset + count)
                  (acc ++ map mapIssue page) w1) as [[o t2] w2] eqn:Hrec.
      injection Hrun as -> _ ->.
      destruct (IH _ _ _ _ _ _ Hrec) as (pages & Hs & ->).
      exists (page :: pages). split.
      * now apply serves_more with w1.
      * cbn [List.concat]. now rewrite map_app, app_assoc.
  - rewrite (loop_step_rejected _ _ _ _ _ _ H) in Hrun. discriminate.
Qed.

(** When the [n]-th answer is a short page, the loop has a result that
    no longer depends on the bound once the bound exceeds [n]. *)
Lemma getIssues_loop_terminates n :
  forall offset acc w page,
  nth_page client projectId n offset w = Resolved page ->
  Z.of_nat (List.length page) < count ->
  exists o t w',
    is_NoFuel o = false /\
    (count_events is_EvRequest t <= S n)%nat /\
    forall fuel, (n < fuel)%nat ->
      getIssues_loop client fuel projectId offset acc w = (o, t, w').
Proof.
  induction n as [|n IH]; intros offset acc w page Hn Hlt; cbn [nth_page] in Hn;
    destruct (client_getIssues client (issues_query projectId offset) w)
      as [[p|e] w1] eqn:H; cbn [fst snd] in Hn.
  - injection Hn as ->.
    eexists _, _, _. split; [|split]; [| |intros [|fuel] Hf; [lia|];
      apply (loop_step_short _ _ _ _ _ _ H Hlt)]; [reflexivity|cbn; lia].
  - discriminate.
  - destruct (Z.lt_ge_cases (Z.of_nat (List.length p)) count) as [Hp|Hp].
    + eexists _, _, _. split; [|split]; [| |intros [|fuel] Hf; [lia|];
        apply (loop_step_short _ _ _ _ _ _ H Hp)]; [reflexivity|cbn; lia].
    + destruct (IH (offset + count) (acc ++ map mapIssue p) w1 page Hn Hlt)
        as (o & t & w' & Ho & Ht & Hrun).
      exists o, (EvRequest (ReqGetIssues (issues_query projectId offset)) :: t), w'.
      split; [exact Ho|]. split; [unfold count_events in *; cbn [filter is_EvRequest List.length]; lia|].
      intros [|fuel] Hf; [lia|].
      rewrite (loop_step_full _ _ _ _ _ _ H Hp), Hrun by lia. reflexivity.
  - eexists _, _, _. split; [|split]; [| |intros [|fuel] Hf; [lia|];
      apply (loop_step_rejected _ _ _ _ _ _ H)]; [reflexivity|cbn; lia].
Qed.

End PaginationFacts.

(** C1.  Whatever pages the remote serves, all of them full (100 items
    or more) until a first page with fewer than 100 items: [getIssues]
    sends one request per page, with count 100 and offsets 0, 100,
    200, ..., sends none after the short page, and returns the pages
    concatenated in order, each item mapped to an issue record.  In
    particular a page of 100 items followed by a page of 40 gives 140
    records and exactly two requests, at offsets 0 and 100. *)
Theorem getIssues_pagination
    {W} (client : Backlog W) (projectId : Z) (w : W) (fuel : nat) :
  (forall pages w',
     serves client projectId 0 w pages w' ->
     (List.length pages <= fuel)%nat ->
     getIssues client fuel projectId w
     = (Returned (map mapIssue (List.concat pages)),
        map (page_request projectId) (seq 0 (List.length pages)), w')) /\
  (forall page1 page2 w1 w2,
     client_getIssues client (issues_query projectId 0) w
       = (Resolved page1, w1) ->
     List.length page1 = 100%nat ->
     client_getIssues client (issues_query projectId 100) w1
       = (Resolved page2, w2) ->
     List.length page2 = 40%nat ->
     (2 <= fuel)%nat ->
     exists issues,
       getIssues client fuel projectId w
       = (Returned issues,
          [page_request projectId 0; page_request projectId 1], w2) /\
       issues = map mapIssue (page1 ++ page2) /\
       List.length issues = 140%nat).
Proof.
  assert (Hgen : forall pages w',
     serves client projectId 0 w pages w' ->
     (List.length pages <= fuel)%nat ->
     getIssues client fuel projectId w
     = (Returned (map mapIssue (List.concat pages)),
        map (page_request projectId) (seq 0 (List.length pages)), w')).
  { intros pages w' Hs Hf. unfold getIssues. rewrite try_rethrow.
    rewrite (getIssues_loop_serves _ _ _ _ _ _ _ Hs fuel [] Hf).
    now rewrite <- (page_requests_seq projectId 0). }
  split; [exact Hgen|].
  intros page1 page2 w1 w2 H1 L1 H2 L2 Hf.
  exists (map mapIssue (page1 ++ page2)). split; [|split].
  - rewrite (Hgen [page1; page2] w2).
    + cbn [List.concat]. now rewrite app_nil_r.
    + apply serves_more with w1; [exact H1 | unfold count; lia |].
      apply serves_last; [exact H2 | unfold count; lia].
    + exact Hf.
  - reflexivity.
  - rewrite length_map, length_app. lia.
Qed.

Lemma getIssues_pagination_witness :
  exists issues,
    getIssues scripted_client 5 7 (pages_script [page_of_100; page_of_40])
    = (Returned issues,
       [EvRequest (ReqGetIssues
          {| q_projectId := [7]; q_offset := 0; q_count := 100 |});
        EvRequest (ReqGetIssues
          {| q_projectId := [7]; q_offset := 100; q_count := 100 |})],
       pages_script []) /\
    issues = map mapIssue (page_of_100 ++ page_of_40) /\
    List.length issues = 140%nat.
Proof.
  apply (proj2 (getIssues_pagination scripted_client 7
                  (pages_script [page_of_100; page_of_40]) 5)
           page_of_100 page_of_40 (pages_script [page_of_40])
           (pages_script [])).
  - reflexivity.
  - reflexivity.
  - reflexivity.
  - reflexivity.
  - lia.
Defined.

(** C7.  When the first page comes back empty, [getIssues] returns the
    empty sequence after that one request. *)
Theorem getIssues_first_page_empty
    {W} (client : Backlog W) (projectId : Z) (w w' : W) (fuel : nat) :
  client_getIssues client (issues_query projectId 0) w = (Resolved [], w') ->
  (0 < fuel)%nat ->
  getIssues client fuel projectId w
  = (Returned [], [page_request projectId 0], w').
Proof.
  intros H Hf. destruct fuel as [|fuel]; [lia|].
  unfold getIssues. rewrite try_rethrow.
  exact (loop_step_empty _ _ _ _ _ _ _ _ H).
Qed.

Lemma getIssues_first_page_empty_witness :
  getIssues scripted_client 1 7 (pages_script [[]; page_of_40])
  = (Returned [],
     [EvRequest (ReqGetIssues
        {| q_projectId := [7]; q_offset := 0; q_count := 100 |})],
     pages_script [page_of_40]).
Proof.
  apply (getIssues_first_page_empty scripted_client 7
           (pages_script [[]; page_of_40]) (pages_script [page_of_40]) 1).
  - reflexivity.
  - lia.
Defined.

(** C9.  When some answer in the sequence of page responses has fewer
    than 100 items (possibly none), the loop of [getIssues] ends: with
    the [n]-th answer short it sends at most [n + 1] requests, and any
    bound above [n] yields the same result, a value or a thrown error. *)
Theorem getIssues_terminates
    {W} (client : Backlog W) (projectId : Z) (w : W)
    (n : nat) (page : list RemoteIssue) :
  nth_page client projectId n 0 w = Resolved page ->
  Z.of_nat (List.length page) < 100 ->
  exists o t w',
    is_NoFuel o = false /\
    (count_events is_EvRequest t <= S n)%nat /\
    forall fuel, (n < fuel)%nat ->
      getIssues client fuel projectId w = (o, t, w').
Proof.
  intros Hn Hlt.
  destruct (getIssues_loop_terminates _ client projectId n 0 [] w page Hn Hlt)
    as (o & t & w' & Ho & Ht & Hrun).
  exists o, t, w'. split; [exact Ho|]. split; [exact Ht|].
  intros fuel Hf. unfold getIssues. rewrite try_rethrow. now apply Hrun.
Qed.

Lemma getIssues_terminates_witness :
  exists o t w',
    is_NoFuel o = false /\
    (count_events is_EvRequest t <= 3)%nat /\
    forall fuel, (2 < fuel)%nat ->
      getIssues scripted_client fuel 7
        (pages_script [page_of_100; page_of_100; []]) = (o, t, w').
Proof.
  apply (getIssues_terminates scripted_client 7
           (pages_script [page_of_100; page_of_100; []]) 2 []).
  - reflexivity.
  - cbn. lia.
Defined.

(** ** Project validation *)

Lemma js_strict_eq_true a b : js_strict_eq a b = true <-> a = b.
Proof.
  destruct a as [| |s], b as [| |s']; cbn; split; intros H;
    try reflexivity; try discriminate.
  - apply String.eqb_eq in H. now subst.
  - injection H as ->. apply String.eqb_refl.
Qed.

(** C4.  For a remote project whose [textFormattingRule] is anything but
    "markdown", [getProject] throws the error that reports the rule and
    returns no value; for a project whose rule is "markdown" it returns
    the record of its id, key, name and rule. *)
Theorem getProject_validates
    {W} (client : Backlog W) (key : string) (w w' : W)
    (project : RemoteProject) :
  client_getProject client key w = (Resolved project, w') ->
  (r_textFormattingRule project <> JString "markdown" ->
   getProject client key w
   = (Threw (ThrownObj (new_Error
        ("Project " ++ key ++ " does not use markdown formatting (uses: "
         ++ js_to_string (r_textFormattingRule project) ++ ")")%string)),
      [EvRequest (ReqGetProject key)], w')) /\
  (r_textFormattingRule project = JString "markdown" ->
   getProject client key w
   = (Returned {| project_id := r_project_id project;
                  projectKey := r_projectKey project;
                  project_name := r_project_name project;
                  textFormattingRule := JString "markdown" |},
      [EvRequest (ReqGetProject key)], w')).
Proof.
  intros H. unfold getProject. rewrite try_rethrow.
  unfold bind, await_client. rewrite H.
  destruct (js_strict_eq (r_textFormattingRule project) (JString "markdown"))
    eqn:E; cbn [negb].
  - apply js_strict_eq_true in E. split; [congruence|].
    intros _. now rewrite E.
  - split; [reflexivity|].
    intros E'. apply js_strict_eq_true in E'. congruence.
Qed.

Lemma getProject_validates_witness :
  getProject scripted_client "BLG" (project_script (JString "backlog"))
  = (Threw (ThrownObj (new_Error
       "Project BLG does not use markdown formatting (uses: backlog)")),
     [EvRequest (ReqGetProject "BLG")], project_script (JString "backlog")) /\
  getProject scripted_client "BLG" (project_script (JString "markdown"))
  = (Returned {| project_id := 9; projectKey := "BLG";
                 project_name := "Blog";
                 textFormattingRule := JString "markdown" |},
     [EvRequest (ReqGetProject "BLG")], project_script (JString "markdown")).
Proof.
  split.
  - apply (proj1 (getProject_validates scripted_client "BLG"
                    (project_script (JString "backlog"))
                    (project_script (JString "backlog"))
                    (sample_project (JString "backlog")) eq_refl)).
    discriminate.
  - apply (proj2 (getProject_validates scripted_client "BLG"
                    (project_script (JString "markdown"))
                    (project_script (JString "markdown"))
                    (sample_project (JString "markdown")) eq_refl)).
    reflexivity.
Defined.

(** ** Defaulting of [description] and [content] *)

Lemma normalized_or_empty (v : JsVal) : normalized v (js_or v (JString "")).
Proof.
  unfold normalized, js_or, absent.
  destruct v as [| |s]; cbn.
  - repeat split; congruence.
  - repeat split; congruence.
  - destruct (negb (s =? "")%string); repeat split;
      try congruence; intros [H|H]; discriminate H.
Qed.

Lemma mapIssue_normalized raws :
  Forall2 (fun raw i => normalized (r_description raw) (description i))
    raws (map mapIssue raws).
Proof.
  induction raws as [|raw raws IH]; cbn; constructor;
    [apply normalized_or_empty | exact IH].
Qed.

Lemma mapWiki_normalized raws :
  Forall2 (fun raw k => normalized (r_content raw) (content k))
    raws (map mapWiki raws).
Proof.
  induction raws as [|raw raws IH]; cbn; constructor;
    [apply normalized_or_empty | exact IH].
Qed.

(** A value returned by the retry loop is the value of an invocation of
    the wrapped call, in the state the loop ends in. *)
Lemma retry_loop_returned {W T} (apiCall : M W T) n :
  forall last w v t w',
  retry_loop apiCall n last w = (Returned v, t, w') ->
  exists w1 t1, apiCall w1 = (Returned v, t1, w').
Proof.
  induction n as [|n IH]; intros last w v t w' Hrun; [discriminate|].
  destruct (apiCall w) as [[[a|[|e]|] t1] w1] eqn:H.
  - rewrite (retry_step_returned _ _ _ _ _ _ _ _ _ H) in Hrun.
    injection Hrun as <- _ <-. now exists w, t1.
  - cbn in Hrun. unfold try_catch, bind, emit in Hrun. rewrite H in Hrun.
    discriminate.
  - destruct (rate_limit_error e) eqn:R.
    + rewrite (retry_step_rate_limited _ _ _ _ _ _ _ _ _ H R) in Hrun.
      destruct (retry_loop apiCall n (ThrownObj e) w1) as [[o t2] w2] eqn:Hrec.
      injection Hrun as -> _ ->. exact (IH _ _ _ _ _ Hrec).
    + rewrite (retry_step_other _ _ _ _ _ _ _ _ _ H R) in Hrun. discriminate.
  - cbn in Hrun. unfold try_catch, bind, emit in Hrun. rewrite H in Hrun.
    discriminate.
Qed.

(** C8.  The records that [getIssues], [getIssue], [getWikis] and
    [getWiki] return are made from the payloads of the remote, and in
    each of them [description] (for issues) or [content] (for wikis) is
    the empty string whenever the payload lacks the field, and in no
    case [undefined] or [null]. *)
Theorem missing_fields_default_to_empty {W} (client : Backlog W) :
  (forall fuel projectId w issues t w',
     getIssues client fuel projectId w = (Returned issues, t, w') ->
     exists pages,
       serves client projectId 0 w pages w' /\
       Forall2 (fun raw i => normalized (r_description raw) (description i))
         (List.concat pages) issues) /\
  (forall issueId w issue t w',
     getIssue client issueId w = (Returned issue, t, w') ->
     exists raw w1,
       client_getIssue client issueId w1 = (Resolved raw, w') /\
       issue = mapIssue raw /\
       normalized (r_description raw) (description issue)) /\
  (forall projectId w wikis t w',
     getWikis client projectId w = (Returned wikis, t, w') ->
     exists raws,
       client_getWikis client projectId w = (Resolved raws, w') /\
       Forall2 (fun raw k => normalized (r_content raw) (content k))
         raws wikis) /\
  (forall wikiId w wiki t w',
     getWiki client wikiId w = (Returned wiki, t, w') ->
     exists raw w1,
       client_getWiki client wikiId w1 = (Resolved raw, w') /\
       wiki = mapWiki raw /\
       normalized (r_content raw) (content wiki)).
Proof.
  repeat split.
  - intros fuel projectId w issues t w' Hrun.
    unfold getIssues in Hrun. rewrite try_rethrow in Hrun.
    destruct (getIssues_loop_returned _ _ _ _ _ _ _ _ _ _ Hrun)
      as (pages & Hs & ->).
    exists pages. split; [exact Hs|]. apply mapIssue_normalized.
  - intros issueId w issue t w' Hrun. unfold getIssue, retryApiCall in Hrun.
    destruct (retry_loop_returned _ _ _ _ _ _ _ Hrun) as (w1 & t1 & Hcall).
    unfold bind, await_client, ret in Hcall.
    destruct (client_getIssue client issueId w1) as [[raw|e] w2] eqn:H;
      [|discriminate].
    injection Hcall as <- _ <-. exists raw, w1.
    repeat split; [exact H | apply normalized_or_empty..].
  - intros projectId w wikis t w' Hrun.
    unfold getWikis in Hrun. rewrite try_rethrow in Hrun.
    unfold bind, await_client, ret in Hrun.
    destruct (client_getWikis client projectId w) as [[raws|e] w2] eqn:H;
      [|discriminate].
    injection Hrun as <- _ <-. exists raws. split; [reflexivity|].
    apply mapWiki_normalized.
  - intros wikiId w wiki t w' Hrun. unfold getWiki, retryApiCall in Hrun.
    destruct (retry_loop_returned _ _ _ _ _ _ _ Hrun) as (w1 & t1 & Hcall).
    unfold bind, await_client, ret in Hcall.
    destruct (client_getWiki client wikiId w1) as [[raw|e] w2] eqn:H;
      [|discriminate].
    injection Hcall as <- _ <-. exists raw, w1.
    repeat split; [exact H | apply normalized_or_empty..].
Qed.

Lemma missing_fields_default_to_empty_witness :
  (exists pages,
     serves scripted_client 7 0
       (pages_script [[sample_issue JNull; sample_issue (JString "x")]])
       pages (pages_script []) /\
     Forall2 (fun raw i => normalized (r_description raw) (description i))
       (List.concat pages)
       [mapIssue (sample_issue JNull); mapIssue (sample_issue (JString "x"))]) /\
  (exists raw w1,
     client_getIssue scripted_client 1 w1 = (Resolved raw, issue_script []) /\
     mapIssue (sample_issue JUndefined) = mapIssue raw /\
     normalized (r_description raw)
       (description (mapIssue (sample_issue JUndefined)))) /\
  (exists raws,
     client_getWikis scripted_client 9 (wiki_script [])
       = (Resolved raws, wiki_script []) /\
     Forall2 (fun raw k => normalized (r_content raw) (content k)) raws
       [mapWiki (sample_wiki JNull); mapWiki (sample_wiki (JString "# Home"))]) /\
  (exists raw w1,
     client_getWiki scripted_client 5 w1 = (Resolved raw, wiki_script []) /\
     mapWiki (sample_wiki JNull) = mapWiki raw /\
     normalized (r_content raw) (content (mapWiki (sample_wiki JNull)))).
Proof.
  destruct (missing_fields_default_to_empty scripted_client)
    as (Hissues & Hissue & Hwikis & Hwiki).
  split; [|split; [|split]].
  - apply (Hissues 3%nat 7
             (pages_script [[sample_issue JNull; sample_issue (JString "x")]])
             _ [page_request 7 0]).
    reflexivity.
  - apply (Hissue 1
             (issue_script [Rejected (ThrownObj too_many_requests);
                            Resolved (sample_issue JUndefined)])
             _ [EvInvoke; EvRequest (ReqGetIssue 1); EvSleep 15000;
                EvInvoke; EvRequest (ReqGetIssue 1)]).
    reflexivity.
  - apply (Hwikis 9 (wiki_script []) _ [EvRequest (ReqGetWikis 9)]).
    reflexivity.
  - apply (Hwiki 5 (wiki_script [Resolved (sample_wiki JNull)])
             _ [EvInvoke; EvRequest (ReqGetWiki 5)]).
    reflexivity.
Defined.

(** * Further properties of the client *)

(** ** The retry helper, for any number of rate-limited attempts *)

(** Over a run of rate-limited attempts the loop only waits and goes on. *)
Lemma retry_loop_limited_run {W T} (apiCall : M W T) k :
  forall w last t w' last' n,
  limited_run apiCall k w last t w' last' ->
  retry_loop apiCall (k + n) last w =
    let '(o, t2, w2) := retry_loop apiCall n last' w' in
    (o, t ++ t2, w2).
Proof.
  induction k as [|k IH]; intros w last t w' last' n Hrun; inversion Hrun; subst.
  - cbn [Nat.add app]. now destruct (retry_loop apiCall n last' w') as [[o t2] w2].
  - cbn [Nat.add].
    rewrite (retry_step_rate_limited _ _ _ _ _ _ _ _ _ H0 H1).
    rewrite (IH _ _ _ _ _ n H2).
    destruct (retry_loop apiCall n last' w') as [[o t2] w2].
    now rewrite <- !app_assoc.
Qed.

(** X1.  After any number [k <= maxRetries] of rate-limited rejections,
    the next invocation decides: if it resolves, the helper returns its
    value; if it is rejected with an error that is not a rate-limit
    error, the helper rethrows that error.  Either way the call was
    invoked [k + 1] times and the helper waited [k] times. *)
Theorem retry_settles_after_rate_limits
    {W T} (apiCall : M W T) (maxRetries : Z) (k : nat)
    (w w1 w2 : W) (t t' : list Event) (last : Thrown) :
  Z.of_nat k <= maxRetries ->
  limited_run apiCall k w ThrownUndefined t w1 last ->
  (forall v, apiCall w1 = (Returned v, t', w2) ->
     retryApiCall apiCall maxRetries w = (Returned v, t ++ attempt t', w2)) /\
  (forall e, apiCall w1 = (Threw (ThrownObj e), t', w2) ->
     rate_limit_error e = false ->
     retryApiCall apiCall maxRetries w
     = (Threw (ThrownObj e), t ++ attempt t', w2)).
Proof.
  intros Hm Hrun. unfold retryApiCall.
  destruct (iterations_above maxRetries k Hm) as [j ->].
  replace (S (k + j)) with (k + S j)%nat by lia.
  rewrite (retry_loop_limited_run _ _ _ _ _ _ _ (S j) Hrun).
  split.
  - intros v H. now rewrite (retry_step_returned _ _ _ _ _ _ _ _ _ H).
  - intros e H R. now rewrite (retry_step_other _ _ _ _ _ _ _ _ _ H R).
Qed.

Lemma retry_settles_after_rate_limits_witness :
  retryApiCall scripted default_maxRetries
    [Rejected (ThrownObj too_many_requests);
     Rejected (ThrownObj second_error);
     Rejected (ThrownObj too_many_requests);
     Resolved 42; Resolved 43]
  = (Returned 42,
     [EvInvoke; EvSleep 15000; EvInvoke; EvSleep 15000;
      EvInvoke; EvSleep 15000; EvInvoke],
     [Resolved 43]) /\
  retryApiCall (@scripted Z) default_maxRetries
    [Rejected (ThrownObj too_many_requests); Rejected (ThrownObj not_found)]
  = (Threw (ThrownObj not_found), [EvInvoke; EvSleep 15000; EvInvoke], []).
Proof.
  split.
  - apply (proj1 (retry_settles_after_rate_limits scripted default_maxRetries 3
             [Rejected (ThrownObj too_many_requests);
              Rejected (ThrownObj second_error);
              Rejected (ThrownObj too_many_requests);
              Resolved 42; Resolved 43]
             [Resolved 42; Resolved 43] [Resolved 43]
             (attempt [] ++ wait ++ attempt [] ++ wait ++ attempt [] ++ wait ++ [])
             [] (ThrownObj too_many_requests)
             ltac:(unfold default_maxRetries; lia)
             ltac:(repeat (eapply limited_next; [reflexivity|reflexivity|]);
                   apply limited_none))).
    reflexivity.
  - apply (proj2 (retry_settles_after_rate_limits (@scripted Z)
             default_maxRetries 1
             [Rejected (ThrownObj too_many_requests);
              Rejected (ThrownObj not_found)]
             [Rejected (ThrownObj not_found)] []
             (attempt [] ++ wait ++ [])
             [] (ThrownObj too_many_requests)
             ltac:(unfold default_maxRetries; lia)
             ltac:(repeat (eapply limited_next; [reflexivity|reflexivity|]);
                   apply limited_none))).
    + reflexivity.
    + reflexivity.
Defined.

(** X2.  For any bound [maxRetries >= 0]: when [maxRetries + 1]
    invocations in a row are rate limited, the helper gives up after
    them and throws the error of the last one; it has then invoked the
    call [maxRetries + 1] times and waited as many times. *)
Theorem retry_gives_up_after_bound
    {W T} (apiCall : M W T) (maxRetries : Z)
    (w w' : W) (t : list Event) (last : Thrown) :
  0 <= maxRetries ->
  limited_run apiCall (Z.to_nat (maxRetries + 1)) w ThrownUndefined t w' last ->
  retryApiCall apiCall maxRetries w = (Threw last, t, w') /\
  exists e, last = ThrownObj e /\ rate_limit_error e = true.
Proof.
  intros Hm Hrun. unfold retryApiCall. split.
  - replace (Z.to_nat (maxRetries + 1))
      with (Z.to_nat (maxRetries + 1) + 0)%nat at 1 by lia.
    rewrite (retry_loop_limited_run _ _ _ _ _ _ _ 0%nat Hrun).
    rewrite retry_zero. now rewrite app_nil_r.
  - destruct (iterations_above maxRetries 0 Hm) as [j Hj].
    rewrite Hj in Hrun. cbn [Nat.add] in Hrun. clear Hj.
    revert Hrun. generalize ThrownUndefined. revert w t.
    induction j as [|j IH]; intros w t l0 Hrun; inversion Hrun; subst.
    + inversion H2; subst. now exists e.
    + exact (IH _ _ _ H2).
Qed.

Lemma retry_gives_up_after_bound_witness :
  retryApiCall scripted 1
    [Rejected (ThrownObj too_many_requests);
     Rejected (ThrownObj second_error); Resolved 42]
  = (Threw (ThrownObj second_error),
     [EvInvoke; EvSleep 15000; EvInvoke; EvSleep 15000], [Resolved 42]) /\
  exists e, ThrownObj second_error = ThrownObj e /\ rate_limit_error e = true.
Proof.
  apply (retry_gives_up_after_bound scripted 1 _ [Resolved 42]
           (attempt [] ++ wait ++ attempt [] ++ wait ++ [])
           (ThrownObj second_error)).
  - lia.
  - repeat (eapply limited_next; [reflexivity|reflexivity|]).
    apply limited_none.
Defined.

(** X3.  With a negative [maxRetries] the loop body never runs: the
    helper does not invoke the call at all and throws [undefined], the
    value [lastError] was declared with. *)
Theorem retry_negative_bound_throws_undefined
    {W T} (apiCall : M W T) (maxRetries : Z) (w : W) :
  maxRetries < 0 ->
  retryApiCall apiCall maxRetries w = (Threw ThrownUndefined, [], w).
Proof.
  intros Hm. unfold retryApiCall.
  replace (Z.to_nat (maxRetries + 1)) with 0%nat by lia.
  reflexivity.
Qed.

Lemma retry_negative_bound_throws_undefined_witness :
  retryApiCall scripted (-1) [Resolved 42]
  = (Threw ThrownUndefined, [], [Resolved 42]).
Proof.
  apply (retry_negative_bound_throws_undefined scripted (-1) [Resolved 42]).
  lia.
Defined.

(** X4.  When the wrapped call is rejected with [undefined], the catch
    block fails reading [error.message]: the helper throws a TypeError
    in place of the rejection, after that single invocation and without
    waiting. *)
Theorem retry_undefined_rejection_raises_type_error
    {W T} (apiCall : M W T) (maxRetries : Z) (w w1 : W) (t : list Event) :
  0 <= maxRetries ->
  apiCall w = (Threw ThrownUndefined, t, w1) ->
  exists e,
    retryApiCall apiCall maxRetries w = (Threw (ThrownObj e), attempt t, w1) /\
    err_name e = "TypeError".
Proof.
  intros Hm H. unfold retryApiCall.
  destruct (iterations_above maxRetries 0 Hm) as [j ->]. cbn [Nat.add].
  eexists. split.
  - cbn [retry_loop]. unfold try_catch, bind, emit. rewrite H.
    cbn [read_message throw]. unfold attempt. cbn [app].
    rewrite !app_nil_r. reflexivity.
  - reflexivity.
Qed.

Lemma retry_undefined_rejection_raises_type_error_witness :
  exists e,
    retryApiCall (@scripted Z) default_maxRetries []
      = (Threw (ThrownObj e), [EvInvoke], []) /\
    err_name e = "TypeError".
Proof.
  apply (retry_undefined_rejection_raises_type_error
           (@scripted Z) default_maxRetries [] [] []).
  - unfold default_maxRetries. lia.
  - reflexivity.
Defined.

(** ** The four wrapped methods *)

Lemma retry_trace_next r k :
  [EvInvoke; EvRequest r] ++ wait ++ retry_trace r (S k) = retry_trace r (S (S k)).
Proof. reflexivity. Qed.

(** The loop around a call that sends one request per invocation. *)
Lemma retry_loop_single_request {W T} (apiCall : M W T) (r : Request) :
  (forall w, snd (fst (apiCall w)) = [EvRequest r] /\
             is_NoFuel (fst (fst (apiCall w))) = false) ->
  forall n last w, retried_run r (S n) (retry_loop apiCall (S n) last w).
Proof.
  intros Hcall. induction n as [|n IH]; intros last w;
    destruct (Hcall w) as [Ht Hf];
    destruct (apiCall w) as [[[v|[|e]|] t] w1] eqn:H; cbn [fst snd] in Ht, Hf;
    subst t; try discriminate.
  - rewrite (retry_step_returned _ _ _ _ _ _ _ _ _ H).
    split; [reflexivity|]. exists 1%nat. split; [lia|]. now left.
  - cbn [retry_loop]. unfold try_catch, bind, emit. rewrite H.
    cbn [read_message throw app]. split; [reflexivity|].
    exists 1%nat. split; [lia|]. now left.
  - destruct (rate_limit_error e) eqn:R.
    + rewrite (retry_step_rate_limited _ _ _ _ _ _ _ _ _ H R), retry_zero.
      split; [reflexivity|]. exists 1%nat. split; [lia|]. right.
      cbn [fst snd]. rewrite app_nil_r. repeat split. now exists e.
    + rewrite (retry_step_other _ _ _ _ _ _ _ _ _ H R).
      split; [reflexivity|]. exists 1%nat. split; [lia|]. now left.
  - rewrite (retry_step_returned _ _ _ _ _ _ _ _ _ H).
    split; [reflexivity|]. exists 1%nat. split; [lia|]. now left.
  - cbn [retry_loop]. unfold try_catch, bind, emit. rewrite H.
    cbn [read_message throw app]. split; [reflexivity|].
    exists 1%nat. split; [lia|]. now left.
  - destruct (rate_limit_error e) eqn:R.
    + rewrite (retry_step_rate_limited _ _ _ _ _ _ _ _ _ H R).
      destruct (IH (ThrownObj e) w1) as (Hnf & k & Hk & Hshape).
      destruct (retry_loop apiCall (S n) (ThrownObj e) w1) as [[o t2] w2].
      cbn [fst snd] in *. split; [exact Hnf|].
      exists (S k). split; [lia|].
      destruct Hshape as [-> | (-> & -> & He)].
      * left. destruct k as [|k]; [lia|]. apply retry_trace_next.
      * right. split; [reflexivity|]. split; [|exact He].
        rewrite <- retry_trace_next. unfold attempt.
        cbn [app]. now rewrite <- !app_assoc.
    + rewrite (retry_step_other _ _ _ _ _ _ _ _ _ H R).
      split; [reflexivity|]. exists 1%nat. split; [lia|]. now left.
Qed.

Lemma retry_trace_bounds r k :
  total_sleep (retry_trace r k) = 15000 * Z.of_nat (Nat.pred k) /\
  count_events is_EvRequest (retry_trace r k) = k.
Proof.
  induction k as [|[|k] IH]; [split; reflexivity..|].
  destruct IH as [IHs IHc]. rewrite <- retry_trace_next. split.
  - cbn [app wait total_sleep]. rewrite IHs. unfold waitTime.
    cbn [Nat.pred]. lia.
  - unfold count_events in *. cbn [app wait filter is_EvRequest List.length].
    now rewrite IHc.
Qed.

Lemma retried_run_bounds {A W} r n (run : Outcome A * list Event * W) :
  retried_run r n run ->
  0 <= total_sleep (snd (fst run)) <= 15000 * Z.of_nat n /\
  (1 <= count_events is_EvRequest (snd (fst run)) <= n)%nat.
Proof.
  intros (_ & k & Hk & [-> | (-> & -> & _)]).
  - destruct (retry_trace_bounds r k) as [-> ->]. lia.
  - assert (Hs : total_sleep (retry_trace r n ++ wait)
                 = total_sleep (retry_trace r n) + 15000).
    { generalize (retry_trace r n). intros l.
      induction l as [|[q|ms|] l IHl]; cbn [app total_sleep wait];
        unfold waitTime; lia. }
    assert (Hc : count_events is_EvRequest (retry_trace r n ++ wait)
                 = count_events is_EvRequest (retry_trace r n)).
    { unfold count_events. rewrite filter_app. cbn. now rewrite app_nil_r. }
    rewrite Hs, Hc. destruct (retry_trace_bounds r n) as [-> ->]. lia.
Qed.

Section WrappedMethods.

Variable W : Type.
Variable client : Backlog W.

Lemma getIssue_retried issueId w :
  retried_run (ReqGetIssue issueId) 4 (getIssue client issueId w).
Proof.
  apply (retry_loop_single_request _ (ReqGetIssue issueId)).
  intros w0. unfold bind, await_client, ret.
  destruct (client_getIssue client issueId w0) as [[raw|e] w1]; now split.
Qed.

Lemma getWiki_retried wikiId w :
  retried_run (ReqGetWiki wikiId) 4 (getWiki client wikiId w).
Proof.
  apply (retry_loop_single_request _ (ReqGetWiki wikiId)).
  intros w0. unfold bind, await_client, ret.
  destruct (client_getWiki client wikiId w0) as [[raw|e] w1]; now split.
Qed.

Lemma updateIssue_retried issueId d w :
  retried_run (ReqPatchIssue issueId d) 4 (updateIssue client issueId d w).
Proof.
  apply (retry_loop_single_request _ (ReqPatchIssue issueId d)).
  intros w0. unfold await_client.
  destruct (client_patchIssue client issueId d w0) as [[u|e] w1]; now split.
Qed.

Lemma updateWiki_retried wikiId c w :
  retried_run (ReqPatchWiki wikiId c) 4 (updateWiki client wikiId c w).
Proof.
  apply (retry_loop_single_request _ (ReqPatchWiki wikiId c)).
  intros w0. unfold await_client.
  destruct (client_patchWiki client wikiId c w0) as [[u|e] w1]; now split.
Qed.

End WrappedMethods.

(** X5.  Whatever the remote does, a run of [getIssue], [updateIssue],
    [getWiki] or [updateWiki] ends after one to four attempts; every
    attempt sends the same single request, carrying the arguments of
    the method; consecutive attempts are separated by one wait of
    15000 ms, and only a run whose four attempts were all rate limited
    ends with a further wait, throwing the rate-limit error. *)
Theorem wrapped_methods_retry_shape {W} (client : Backlog W) :
  (forall issueId w,
     retried_run (ReqGetIssue issueId) 4 (getIssue client issueId w)) /\
  (forall issueId d w,
     retried_run (ReqPatchIssue issueId d) 4 (updateIssue client issueId d w)) /\
  (forall wikiId w,
     retried_run (ReqGetWiki wikiId) 4 (getWiki client wikiId w)) /\
  (forall wikiId c w,
     retried_run (ReqPatchWiki wikiId c) 4 (updateWiki client wikiId c w)).
Proof.
  split; [|split; [|split]].
  - intros. apply getIssue_retried.
  - intros. apply updateIssue_retried.
  - intros. apply getWiki_retried.
  - intros. apply updateWiki_retried.
Qed.

(** X6.  Whatever the remote does, each of [getIssue], [updateIssue],
    [getWiki] and [updateWiki] sends at least one and at most four
    requests, and spends at most 60000 ms waiting. *)
Theorem wrapped_methods_bounded {W} (client : Backlog W) :
  (forall issueId w,
     let t := snd (fst (getIssue client issueId w)) in
     0 <= total_sleep t <= 60000 /\
     (1 <= count_events is_EvRequest t <= 4)%nat) /\
  (forall issueId d w,
     let t := snd (fst (updateIssue client issueId d w)) in
     0 <= total_sleep t <= 60000 /\
     (1 <= count_events is_EvRequest t <= 4)%nat) /\
  (forall wikiId w,
     let t := snd (fst (getWiki client wikiId w)) in
     0 <= total_sleep t <= 60000 /\
     (1 <= count_events is_EvRequest t <= 4)%nat) /\
  (forall wikiId c w,
     let t := snd (fst (updateWiki client wikiId c w)) in
     0 <= total_sleep t <= 60000 /\
     (1 <= count_events is_EvRequest t <= 4)%nat).
Proof.
  split; [|split; [|split]]; intros.
  - apply (retried_run_bounds _ 4 _ (getIssue_retried _ client issueId w)).
  - apply (retried_run_bounds _ 4 _ (updateIssue_retried _ client issueId d w)).
  - apply (retried_run_bounds _ 4 _ (getWiki_retried _ client wikiId w)).
  - apply (retried_run_bounds _ 4 _ (updateWiki_retried _ client wikiId c w)).
Qed.

(** X7.  [updateIssue] and [updateWiki] report success only for a patch
    the remote accepted: when either returns, the remote resolved a
    patch request carrying exactly the given id and text, and the state
    reached is the one that request left.  And a patch rejected with an
    error that is not a rate-limit error is not sent again: the method
    throws that error after the single request. *)
Theorem updates_sound {W} (client : Backlog W) :
  (forall issueId d w t w',
     updateIssue client issueId d w = (Returned tt, t, w') ->
     exists w1, client_patchIssue client issueId d w1 = (Resolved tt, w')) /\
  (forall wikiId c w t w',
     updateWiki client wikiId c w = (Returned tt, t, w') ->
     exists w1, client_patchWiki client wikiId c w1 = (Resolved tt, w')) /\
  (forall issueId d w e w',
     client_patchIssue client issueId d w = (Rejected (ThrownObj e), w') ->
     rate_limit_error e = false ->
     updateIssue client issueId d w
     = (Threw (ThrownObj e),
        [EvInvoke; EvRequest (ReqPatchIssue issueId d)], w')) /\
  (forall wikiId c w e w',
     client_patchWiki client wikiId c w = (Rejected (ThrownObj e), w') ->
     rate_limit_error e = false ->
     updateWiki client wikiId c w
     = (Threw (ThrownObj e),
        [EvInvoke; EvRequest (ReqPatchWiki wikiId c)], w')).
Proof.
  split; [|split; [|split]].
  - intros issueId d w t w' Hrun. unfold updateIssue, retryApiCall in Hrun.
    destruct (retry_loop_returned _ _ _ _ _ _ _ Hrun) as (w1 & t1 & Hcall).
    unfold await_client in Hcall.
    destruct (client_patchIssue client issueId d w1) as [[[]|e] w2] eqn:H;
      [|discriminate].
    injection Hcall as _ <-. now exists w1.
  - intros wikiId c w t w' Hrun. unfold updateWiki, retryApiCall in Hrun.
    destruct (retry_loop_returned _ _ _ _ _ _ _ Hrun) as (w1 & t1 & Hcall).
    unfold await_client in Hcall.
    destruct (client_patchWiki client wikiId c w1) as [[[]|e] w2] eqn:H;
      [|discriminate].
    injection Hcall as _ <-. now exists w1.
  - intros issueId d w e w' H R. unfold updateIssue, retryApiCall.
    change (Z.to_nat (default_maxRetries + 1)) with 4%nat.
    apply retry_step_other; [|exact R]. unfold await_client. now rewrite H.
  - intros wikiId c w e w' H R. unfold updateWiki, retryApiCall.
    change (Z.to_nat (default_maxRetries + 1)) with 4%nat.
    apply retry_step_other; [|exact R]. unfold await_client. now rewrite H.
Qed.

Lemma updates_sound_witness :
  (exists w1,
     client_patchIssue patch_client 1 "new text" w1 = (Resolved tt, [])) /\
  updateWiki patch_client 5 "new page"
    [Rejected (ThrownObj not_found); Resolved tt]
  = (Threw (ThrownObj not_found),
     [EvInvoke; EvRequest (ReqPatchWiki 5 "new page")], [Resolved tt]).
Proof.
  destruct (updates_sound patch_client) as (Hissue & _ & _ & Hwiki).
  split.
  - apply (Hissue 1 "new text"%string
             [Rejected (ThrownObj too_many_requests); Resolved tt]
             [EvInvoke; EvRequest (ReqPatchIssue 1 "new text"); EvSleep 15000;
              EvInvoke; EvRequest (ReqPatchIssue 1 "new text")]
             []).
    reflexivity.
  - apply (Hwiki 5 "new page"%string
             [Rejected (ThrownObj not_found); Resolved tt] not_found
             [Resolved tt]).
    + reflexivity.
    + reflexivity.
Defined.

(** ** The page loop in every run *)

Section PageLoopFacts.

Variable W : Type.
Variable client : Backlog W.
Variable projectId : Z.

Lemma getIssues_loop_requests fuel :
  forall offset acc w,
  exists k, (k <= fuel)%nat /\
    snd (fst (getIssues_loop client fuel projectId offset acc w))
      = page_requests projectId offset k /\
    (is_NoFuel (fst (fst (getIssues_loop client fuel projectId offset acc w)))
       = true -> k = fuel).
Proof.
  induction fuel as [|fuel IH]; intros offset acc w.
  - exists 0%nat. repeat split; lia.
  - destruct (client_getIssues client (issues_query projectId offset) w)
      as [[page|e] w1] eqn:H.
    + destruct (Z.lt_ge_cases (Z.of_nat (List.length page)) count) as [Hp|Hp].
      * rewrite (loop_step_short _ _ _ _ _ _ _ _ _ H Hp).
        exists 1%nat. repeat split; [lia | discriminate].
      * rewrite (loop_step_full _ _ _ _ _ _ _ _ _ H Hp).
        destruct (IH (offset + count) (acc ++ map mapIssue page) w1)
          as (k & Hk & Ht & Hn).
        destruct (getIssues_loop client fuel projectId (offset + count)
                    (acc ++ map mapIssue page) w1) as [[o t] w2].
        cbn [fst snd] in *. exists (S k). repeat split; [lia | | ].
        -- cbn [page_requests]. now rewrite Ht.
        -- intros Ho. now rewrite (Hn Ho).
    + rewrite (loop_step_rejected _ _ _ _ _ _ _ _ _ H).
      exists 1%nat. repeat split; [lia | discriminate].
Qed.

Lemma getIssues_loop_rejects offset w pages e w' :
  rejects_after client projectId offset w pages e w' ->
  forall fuel acc, (List.length pages < fuel)%nat ->
  getIssues_loop client fuel projectId offset acc w
  = (Threw e, page_requests projectId offset (S (List.length pages)), w').
Proof.
  induction 1 as [offset w e w' H | offset w page w1 pages e w' H Hle _ IH];
    intros fuel acc Hf; (destruct fuel as [|fuel]; [cbn in Hf; lia|]).
  - exact (loop_step_rejected _ _ _ _ _ _ _ _ _ H).
  - rewrite (loop_step_full _ _ _ _ _ _ _ _ _ H Hle).
    rewrite IH by (cbn in Hf; lia). reflexivity.
Qed.

Lemma getIssues_loop_endless :
  (forall offset w, exists page w',
      client_getIssues client (issues_query projectId offset) w
        = (Resolved page, w') /\
      count <= Z.of_nat (List.length page)) ->
  forall fuel offset acc w, exists w',
    getIssues_loop client fuel projectId offset acc w
    = (NoFuel, page_requests projectId offset fuel, w').
Proof.
  intros Hfull. induction fuel as [|fuel IH]; intros offset acc w.
  - now exists w.
  - destruct (Hfull offset w) as (page & w1 & H & Hle).
    rewrite (loop_step_full _ _ _ _ _ _ _ _ _ H Hle).
    destruct (IH (offset + count) (acc ++ map mapIssue page) w1) as (w' & ->).
    now exists w'.
Qed.

Variable db : list RemoteIssue.

Lemma getIssues_loop_slices w :
  (forall k : nat,
     client_getIssues client (issues_query projectId (100 * Z.of_nat k)) w
     = (Resolved (firstn 100 (skipn (100 * k) db)), w)) ->
  forall fuel k acc,
  (List.length (skipn (100 * k) db) < 100 * fuel)%nat ->
  getIssues_loop client fuel projectId (100 * Z.of_nat k) acc w
  = (Returned (acc ++ map mapIssue (skipn (100 * k) db)),
     page_requests projectId (100 * Z.of_nat k)
       (S (List.length (skipn (100 * k) db) / 100)),
     w).
Proof.
  intros Hslice. induction fuel as [|fuel IH]; intros k acc Hlen; [lia|].
  specialize (Hslice k). set (rest := skipn (100 * k) db) in *.
  destruct (Nat.lt_ge_cases (List.length rest) 100) as [Hshort|Hfull].
  - rewrite firstn_all2 in Hslice by lia.
    rewrite (loop_step_short _ _ _ _ _ _ _ _ _ Hslice)
      by (unfold count; lia).
    now rewrite Nat.div_small by exact Hshort.
  - assert (Hpage : List.length (firstn 100 rest) = 100%nat)
      by (rewrite length_firstn; lia).
    rewrite (loop_step_full _ _ _ _ _ _ _ _ _ Hslice)
      by (rewrite Hpage; unfold count; lia).
    assert (Hnext : skipn (100 * S k) db = skipn 100 rest).
    { unfold rest. rewrite skipn_skipn. f_equal. lia. }
    replace (100 * Z.of_nat k + count) with (100 * Z.of_nat (S k))
      by (unfold count; lia).
    rewrite IH by (rewrite Hnext, length_skipn; lia).
    rewrite Hnext, length_skipn.
    rewrite <- app_assoc, <- map_app, firstn_skipn.
    replace (List.length rest / 100)%nat
      with (S ((List.length rest - 100) / 100)).
    + cbn [page_requests].
      replace (100 * Z.of_nat k + count) with (100 * Z.of_nat (S k))
        by (unfold count; lia).
      reflexivity.
    + replace (List.length rest) with ((List.length rest - 100) + 1 * 100)%nat
        at 2 by lia.
      rewrite Nat.div_add by discriminate. lia.
Qed.

End PageLoopFacts.

(** X8.  In every run of [getIssues], whatever the remote answers and
    however the run ends, the requests sent are page requests for the
    given project with count 100 and offsets 0, 100, 200, ... in this
    order, and nothing else happens: no wait, no other request.  A run
    cut off by the step bound has sent as many requests as the bound. *)
Theorem getIssues_requests_in_order
    {W} (client : Backlog W) (fuel : nat) (projectId : Z) (w : W) :
  exists k, (k <= fuel)%nat /\
    snd (fst (getIssues client fuel projectId w))
      = map (page_request projectId) (seq 0 k) /\
    (is_NoFuel (fst (fst (getIssues client fuel projectId w))) = true ->
     k = fuel).
Proof.
  unfold getIssues. rewrite try_rethrow.
  destruct (getIssues_loop_requests _ client projectId fuel 0 [] w)
    as (k & Hk & Ht & Hn).
  exists k. split; [exact Hk|]. split; [|exact Hn].
  rewrite Ht. apply (page_requests_seq projectId 0).
Qed.

(** X9.  When the remote rejects a page request after any number of
    full pages, [getIssues] throws the value it was rejected with,
    sends no further request, and the issues already fetched are not
    returned. *)
Theorem getIssues_rejection_propagates
    {W} (client : Backlog W) (projectId : Z) (w w' : W)
    (pages : list (list RemoteIssue)) (e : Thrown) (fuel : nat) :
  rejects_after client projectId 0 w pages e w' ->
  (List.length pages < fuel)%nat ->
  getIssues client fuel projectId w
  = (Threw e,
     map (page_request projectId) (seq 0 (S (List.length pages))), w').
Proof.
  intros Hr Hf. unfold getIssues. rewrite try_rethrow.
  rewrite (getIssues_loop_rejects _ _ _ _ _ _ _ _ Hr fuel [] Hf).
  now rewrite <- (page_requests_seq projectId 0).
Qed.

Lemma getIssues_rejection_propagates_witness :
  getIssues scripted_client 9 7 failing_pages_script
  = (Threw (ThrownObj not_found),
     [EvRequest (ReqGetIssues
        {| q_projectId := [7]; q_offset := 0; q_count := 100 |});
      EvRequest (ReqGetIssues
        {| q_projectId := [7]; q_offset := 100; q_count := 100 |})],
     pages_script [page_of_40]).
Proof.
  apply (getIssues_rejection_propagates scripted_client 7
           failing_pages_script (pages_script [page_of_40])
           [page_of_100] (ThrownObj not_found) 9).
  - eapply rejects_later;
      [reflexivity | vm_compute; intro H; discriminate H |].
    apply rejects_now. reflexivity.
  - cbn. lia.
Defined.

(** X10.  The loop has no bound of its own on the number of pages: as
    long as the remote answers every page request with 100 items or
    more, [getIssues] keeps requesting the next page.  For every [n] the
    run is still going after [n] requests. *)
Theorem getIssues_unbounded_on_full_pages
    {W} (client : Backlog W) (projectId : Z) :
  (forall offset w, exists page w',
      client_getIssues client (issues_query projectId offset) w
        = (Resolved page, w') /\
      100 <= Z.of_nat (List.length page)) ->
  forall n w, exists w',
    getIssues client n projectId w
    = (NoFuel, map (page_request projectId) (seq 0 n), w').
Proof.
  intros Hfull n w. unfold getIssues. rewrite try_rethrow.
  destruct (getIssues_loop_endless _ client projectId Hfull n 0 [] w)
    as (w' & ->).
  exists w'. now rewrite <- (page_requests_seq projectId 0).
Qed.

Lemma getIssues_unbounded_on_full_pages_witness :
  exists w',
    getIssues endless_client 3 7 tt
    = (NoFuel, map (page_request 7) (seq 0 3), w').
Proof.
  apply (getIssues_unbounded_on_full_pages endless_client 7).
  intros offset w. exists page_of_100, w. split; [reflexivity|].
  vm_compute. intro H. discriminate H.
Defined.

(** X11.  Against a remote that holds a list of issues and answers the
    request at offset [100 * k] with the slice of at most 100 items that
    starts there, [getIssues] returns every issue exactly once, in the
    order of the list, after [|list| / 100 + 1] requests (so one last,
    empty page is requested when the length is a multiple of 100). *)
Theorem getIssues_fetches_whole_list
    {W} (client : Backlog W) (projectId : Z) (w : W)
    (db : list RemoteIssue) (fuel : nat) :
  (forall k : nat,
     client_getIssues client (issues_query projectId (100 * Z.of_nat k)) w
     = (Resolved (firstn 100 (skipn (100 * k) db)), w)) ->
  (List.length db / 100 < fuel)%nat ->
  getIssues client fuel projectId w
  = (Returned (map mapIssue db),
     map (page_request projectId) (seq 0 (S (List.length db / 100))), w).
Proof.
  intros Hslice Hf. unfold getIssues. rewrite try_rethrow.
  assert (Hlen : (List.length db < 100 * fuel)%nat).
  { pose proof (Nat.mul_succ_div_gt (List.length db) 100 ltac:(discriminate)).
    nia. }
  pose proof (getIssues_loop_slices _ client projectId db w Hslice fuel 0 []
                Hlen) as Hloop.
  change (skipn (100 * 0) db) with db in Hloop.
  change (100 * Z.of_nat 0) with 0 in Hloop.
  rewrite Hloop. cbn [app].
  now rewrite <- (page_requests_seq projectId 0).
Qed.

Lemma getIssues_fetches_whole_list_witness :
  getIssues (paging_client db_200) 3 7 tt
  = (Returned (map mapIssue db_200),
     map (page_request 7) (seq 0 3), tt).
Proof.
  apply (getIssues_fetches_whole_list (paging_client db_200) 7 tt db_200 3).
  - intros k. cbn [paging_client client_getIssues issues_query q_count q_offset].
    replace (Z.to_nat (100 * Z.of_nat k)) with (100 * k)%nat by lia.
    reflexivity.
  - cbn. lia.
Defined.

(** ** Single-request methods *)

(** X12.  [getWikis] sends exactly one request in every run: it neither
    pages nor retries.  When the remote resolves, it returns one record
    per wiki of the answer, in the same order, with the same ids and
    names; when the remote rejects, it throws the value of the
    rejection. *)
Theorem getWikis_single_request
    {W} (client : Backlog W) (projectId : Z) (w : W) :
  snd (fst (getWikis client projectId w)) = [EvRequest (ReqGetWikis projectId)] /\
  (forall raws w',
     client_getWikis client projectId w = (Resolved raws, w') ->
     exists wikis,
       getWikis client projectId w
       = (Returned wikis, [EvRequest (ReqGetWikis projectId)], w') /\
       List.length wikis = List.length raws /\
       map wiki_id wikis = map r_wiki_id raws /\
       map wiki_name wikis = map r_wiki_name raws) /\
  (forall e w',
     client_getWikis client projectId w = (Rejected e, w') ->
     getWikis client projectId w
     = (Threw e, [EvRequest (ReqGetWikis projectId)], w')).
Proof.
  unfold getWikis. rewrite try_rethrow. unfold bind, await_client, ret.
  destruct (client_getWikis client projectId w) as [[raws|e] w1].
  - split; [reflexivity|]. split; [|discriminate].
    intros raws' w' [= <- <-]. exists (map mapWiki raws).
    split; [reflexivity|]. split; [apply length_map|].
    rewrite !map_map. split; reflexivity.
  - split; [reflexivity|]. split; [discriminate|].
    intros e' w' [= <- <-]. reflexivity.
Qed.

Lemma getWikis_single_request_witness :
  exists wikis,
    getWikis scripted_client 9 (wiki_script [])
    = (Returned wikis, [EvRequest (ReqGetWikis 9)], wiki_script []) /\
    List.length wikis = 2%nat /\
    map wiki_id wikis = [5; 5] /\
    map wiki_name wikis = ["Home"; "Home"]%string.
Proof.
  apply (proj1 (proj2 (getWikis_single_request scripted_client 9
                         (wiki_script [])))
           [sample_wiki JNull; sample_wiki (JString "# Home")]
           (wiki_script [])).
  reflexivity.
Defined.

(** X13.  [getProject] sends exactly one request in every run.  Any
    project it returns has the formatting rule "markdown" and carries
    the id, key and name of the remote's answer; when the remote
    rejects the request, it throws the value of the rejection. *)
Theorem getProject_returns_only_markdown
    {W} (client : Backlog W) (key : string) (w : W) :
  snd (fst (getProject client key w)) = [EvRequest (ReqGetProject key)] /\
  (forall p t w',
     getProject client key w = (Returned p, t, w') ->
     textFormattingRule p = JString "markdown" /\
     exists project,
       client_getProject client key w = (Resolved project, w') /\
       project_id p = r_project_id project /\
       projectKey p = r_projectKey project /\
       project_name p = r_project_name project) /\
  (forall e w',
     client_getProject client key w = (Rejected e, w') ->
     getProject client key w = (Threw e, [EvRequest (ReqGetProject key)], w')).
Proof.
  unfold getProject. rewrite try_rethrow. unfold bind, await_client.
  destruct (client_getProject client key w) as [[project|e] w1].
  - destruct (js_strict_eq (r_textFormattingRule project) (JString "markdown"))
      eqn:E; cbn [negb].
    + apply js_strict_eq_true in E.
      split; [reflexivity|]. split; [|discriminate].
      intros p t w' [= <- _ <-]. split; [exact E|].
      exists project. repeat split.
    + split; [reflexivity|]. split; discriminate.
  - split; [reflexivity|]. split; [discriminate|].
    intros e' w' [= <- <-]. reflexivity.
Qed.

Lemma getProject_returns_only_markdown_witness :
  getProject scripted_client "BLG" (issue_script [])
  = (Threw (ThrownObj not_found), [EvRequest (ReqGetProject "BLG")],
     (issue_script [])).
Proof.
  apply (proj2 (proj2 (getProject_returns_only_markdown scripted_client "BLG"
                         (issue_script [])))
           (ThrownObj not_found) (issue_script [])).
  reflexivity.
Defined.

(** ** The mapping and the rate-limit test *)


Lemma prefix_append (p s : string) :
  String.prefix p s = true <-> exists post, s = (p ++ post)%string.
Proof.
  revert s. induction p as [|a p IH]; intros [|b s]; cbn.
  - split; [intros _; now exists ""%string | reflexivity].
  - split; [intros _; now exists (String b s) | reflexivity].
  - split; [discriminate | intros (post & H); discriminate H].
  - destruct (Ascii.ascii_dec a b) as [->|Hab].
    + rewrite IH. split; intros (post & H); exists post.
      * now rewrite H.
      * now injection H.
    + split; [discriminate|]. intros (post & H). injection H as H1 _.
      congruence.
Qed.

Lemma includes_unfold (s needle : string) :
  includes s needle
  = String.prefix needle s
    || match s with
       | EmptyString => false
       | String _ s' => includes s' needle
       end.
Proof. destruct s; reflexivity. Qed.

Lemma includes_substring (s needle : string) :
  includes s needle = true
  <-> exists pre post, s = (pre ++ needle ++ post)%string.
Proof.
  split.
  - induction s as [|c s IH]; rewrite includes_unfold;
      intros H; apply orb_true_iff in H; destruct H as [H|H].
    + apply prefix_append in H. destruct H as (post & ->).
      now exists ""%string, post.
    + discriminate.
    + apply prefix_append in H. destruct H as (post & ->).
      now exists ""%string, post.
    + destruct (IH H) as (pre & post & ->).
      now exists (String c pre), post.
  - intros (pre & post & ->). induction pre as [|c pre IH];
      rewrite includes_unfold; apply orb_true_iff.
    + left. apply prefix_append. now exists post.
    + right. exact IH.
Qed.

(** X15.  The test of the catch block takes an error for a rate-limit
    error exactly when its message is a string in which the text
    'Too Many Requests' occurs, at any position and in this very
    spelling. *)
Theorem rate_limit_test_is_substring (m : JsVal) :
  message_matches m = true
  <-> exists pre post,
        m = JString (pre ++ "Too Many Requests" ++ post)%string.
Proof.
  assert (Hm : message_matches m
               = match m with
                 | JString s => includes s rate_limit_phrase
                 | _ => false
                 end).
  { unfold message_matches. destruct m as [| |[|c s]]; reflexivity. }
  rewrite Hm. destruct m as [| |s].
  - split; [discriminate | intros (pre & post & H); discriminate H].
  - split; [discriminate | intros (pre & post & H); discriminate H].
  - rewrite (includes_substring s rate_limit_phrase).
    split; intros (pre & post & H); exists pre, post.
    + now rewrite H.
    + now injection H.
Qed.

Lemma rate_limit_test_is_substring_witness :
  message_matches (JString "429 Too Many Requests, slow down") = true /\
  message_matches (JString "too many requests") = false.
Proof.
  split.
  - apply (proj2 (rate_limit_test_is_substring
                    (JString "429 Too Many Requests, slow down"))).
    now exists "429 "%string, ", slow down"%string.
  - reflexivity.
Defined.

Lemma getIssues_requests_in_order_witness :
  exists k, (k <= 1)%nat /\
    snd (fst (getIssues scripted_client 1 7
                (pages_script [page_of_100; page_of_40])))
      = map (page_request 7) (seq 0 k) /\
    (is_NoFuel (fst (fst (getIssues scripted_client 1 7
                            (pages_script [page_of_100; page_of_40])))) = true ->
     k = 1%nat).
Proof.
  exact (getIssues_requests_in_order scripted_client 1 7
           (pages_script [page_of_100; page_of_40])).
Defined.
